(** * anyCSV_reader: CSV import with hash-based deduplication, and keyword search

    A shallow embedding of [anyCSV_reader.py].  The program's own logic
    ([generate_table_name], [infer_columns_structure], the per-file pipeline of
    [import_csvs_to_db] with its fallback path, and [search_db]) is written
    out as Rocq functions.  The libraries it calls are handled as follows:

    - [hashlib.sha256], the decoding of a file, the [csv.Sniffer] heuristics
      and [pandas.read_csv] are fields of an environment record [Env]: the
      general theorems hold for any behaviour of these, and the examples
      run in one concrete environment, [Example.env];
    - the SQLite store is modelled concretely: a ledger table, a list of data
      tables with named text columns, statements that fail the way SQLite's
      do (unknown column, duplicate column), the [LIKE] operator, and the
      meaning of a column name pasted bare into a query;
    - Python's string methods ([str.strip], [str.lower], [str.split],
      [os.path.basename], [os.path.splitext] on POSIX, the regular
      expression class [\w]) are modelled on strings whose characters are
      the code points below 256, one [ascii] per character.  On these
      [str.lower] maps character by character; on others it need not
      (U+0130 becomes two characters, the second no word character), so
      the statements on table names say of lower-casing only what holds
      of any string: what it does to the ASCII characters;
    - pandas is taken as of version 2: a missing field is NaN, a field
      missing from a short line is [None], and [astype(str)] prints them
      as [nan] and [None].

    An exception is a result of its own ([Raise], or [None] for a library
    call); what the program wrote before it stays written, as in the
    source, where nothing is rolled back. *)

From Stdlib Require Import String Ascii List Bool Arith PeanoNat Lia ZArith.
From Stdlib Require Import DecimalString DecimalNat.
Import ListNotations.
Open Scope list_scope.
Open Scope string_scope.

(* ================================================================== *)
(** * Python strings *)

Module Py.

Definition code (c : ascii) : nat := nat_of_ascii c.

Definition between (lo hi : nat) (c : ascii) : bool :=
  ((lo <=? code c)%nat && (code c <=? hi)%nat)%bool.

(** [str.isspace] on one character. *)
Definition isspace (c : ascii) : bool :=
  between 9 13 c || between 28 32 c || (code c =? 133)%nat || (code c =? 160)%nat.

Definition is_ascii_upper (c : ascii) : bool := between 65 90 c.
Definition is_ascii_lower (c : ascii) : bool := between 97 122 c.
Definition is_ascii_digit (c : ascii) : bool := between 48 57 c.

(** The class [[A-Za-z0-9_]]. *)
Definition is_ascii_word (c : ascii) : bool :=
  is_ascii_upper c || is_ascii_lower c || is_ascii_digit c || (code c =? 95)%nat.

(** [str.isalnum] on one character: the ASCII letters and digits, and in
    the upper half the letters, the superscript digits and the vulgar
    fractions. *)
Definition isalnum (c : ascii) : bool :=
  is_ascii_upper c || is_ascii_lower c || is_ascii_digit c
  || (code c =? 170)%nat || (code c =? 178)%nat || (code c =? 179)%nat || (code c =? 181)%nat
  || (code c =? 185)%nat || (code c =? 186)%nat || between 188 190 c
  || between 192 214 c || between 216 246 c || between 248 255 c.

(** What [\w] matches in a [str] pattern, among the characters below 256. *)
Definition is_word (c : ascii) : bool := isalnum c || (code c =? 95)%nat.

(** [str.lower] on one character below 256: it gives one character. *)
Definition lower_char (c : ascii) : ascii :=
  if is_ascii_upper c || (between 192 222 c && negb (code c =? 215)%nat)
  then ascii_of_nat (code c + 32)
  else c.

Fixpoint map_string (f : ascii -> ascii) (s : string) : string :=
  match s with
  | EmptyString => EmptyString
  | String c r => String (f c) (map_string f r)
  end.

Fixpoint forall_string (p : ascii -> bool) (s : string) : bool :=
  match s with
  | EmptyString => true
  | String c r => p c && forall_string p r
  end.

Fixpoint exists_string (p : ascii -> bool) (s : string) : bool :=
  match s with
  | EmptyString => false
  | String c r => p c || exists_string p r
  end.

Definition lower (s : string) : string := map_string lower_char s.

(** [re.sub(r'[^\w]', '_', s)] *)
Definition sub_non_word (s : string) : string :=
  map_string (fun c => if is_word c then c else "_"%char) s.

Fixpoint lstrip (s : string) : string :=
  match s with
  | EmptyString => EmptyString
  | String c r => if isspace c then lstrip r else s
  end.

Fixpoint rstrip (s : string) : string :=
  match s with
  | EmptyString => EmptyString
  | String c r =>
      match rstrip r with
      | EmptyString => if isspace c then EmptyString else String c EmptyString
      | r' => String c r'
      end
  end.

(** [str.strip()] *)
Definition strip (s : string) : string := rstrip (lstrip s).

(** Truth value of a string: non-empty. *)
Definition truthy (s : string) : bool :=
  match s with EmptyString => false | _ => true end.

(** [str.split()] without argument: the maximal runs of characters that
    are not white space.  [cur] holds the run being read, reversed. *)
Fixpoint split_go (cur : list ascii) (s : string) : list string :=
  match s with
  | EmptyString =>
      match cur with
      | [] => []
      | _ => [string_of_list_ascii (rev cur)]
      end
  | String c r =>
      if isspace c then
        match cur with
        | [] => split_go [] r
        | _ => string_of_list_ascii (rev cur) :: split_go [] r
        end
      else split_go (c :: cur) r
  end.

Definition split (s : string) : list string := split_go [] s.

(** [s.split(sep)] for a separator of one character: the pieces between
    its occurrences, empty ones included. *)
Fixpoint split_on_go (sep : ascii) (cur : list ascii) (s : string) : list string :=
  match s with
  | EmptyString => [string_of_list_ascii (rev cur)]
  | String c r =>
      if Ascii.eqb c sep
      then string_of_list_ascii (rev cur) :: split_on_go sep [] r
      else split_on_go sep (c :: cur) r
  end.

Definition split_on (sep : ascii) (s : string) : list string :=
  split_on_go sep [] s.


(** [str(n)] for a non-negative integer. *)
Definition str_of_nat (n : nat) : string :=
  NilEmpty.string_of_uint (Nat.to_uint n).

(** [s.rfind(c)], with -1 when [c] does not occur. *)
Fixpoint rfind_go (c : ascii) (s : string) (i last : Z) : Z :=
  match s with
  | EmptyString => last
  | String d r => rfind_go c r (i + 1)%Z (if Ascii.eqb d c then i else last)
  end.

Definition rfind (c : ascii) (s : string) : Z := rfind_go c s 0%Z (-1)%Z.

(** [s[i:]] and [s[:i]] for [0 <= i]. *)
Definition drop (i : Z) (s : string) : string :=
  substring (Z.to_nat i) (String.length s - Z.to_nat i) s.
Definition take (i : Z) (s : string) : string := substring 0 (Z.to_nat i) s.

(** [posixpath.basename] *)
Definition basename (p : string) : string := drop (rfind "/" p + 1)%Z p.

(** The loop of [genericpath._splitext] that skips leading dots: is there
    an index in [i, i + n) whose character is not a dot? *)
Fixpoint has_non_dot (s : string) (i : nat) (n : nat) : bool :=
  match n with
  | O => false
  | S n' =>
      match String.get i s with
      | Some c => if Ascii.eqb c "." then has_non_dot s (S i) n' else true
      | None => true
      end
  end.

(** [posixpath.splitext(p)[0]] *)
Definition splitext_root (p : string) : string :=
  let sepIndex := rfind "/" p in
  let dotIndex := rfind "." p in
  if (sepIndex <? dotIndex)%Z then
    let filenameIndex := (sepIndex + 1)%Z in
    if has_non_dot p (Z.to_nat filenameIndex) (Z.to_nat (dotIndex - filenameIndex))
    then take dotIndex p
    else p
  else p.

(** [s.encode()]: the UTF-8 bytes of a string of code points below 256. *)
Fixpoint utf8_encode (s : string) : string :=
  match s with
  | EmptyString => EmptyString
  | String c r =>
      if (code c <? 128)%nat then String c (utf8_encode r)
      else String (ascii_of_nat (192 + code c / 64))
             (String (ascii_of_nat (128 + code c mod 64)) (utf8_encode r))
  end.

(** [s.startswith(p)] *)
Definition startswith (p s : string) : bool := String.prefix p s.

End Py.

(* ================================================================== *)
(** * Module-level constants and path helpers *)

Definition TABLE_PREFIX : string := "csv_table_".

(** [generate_table_name(file_path)] *)
Definition generate_table_name (file_path : string) : string :=
  let name := Py.splitext_root (Py.basename file_path) in
  let name := Py.sub_non_word name in
  TABLE_PREFIX ++ Py.lower name.

(** [infer_columns_structure()], reading the global [common_column_count]. *)
Definition infer_columns_structure (common_column_count : list nat) : nat :=
  match common_column_count with
  | c :: _ => c
  | [] => 5
  end.


(* ================================================================== *)
(** * Data frames *)

(** A cell of a table: a text, or NULL. *)
Definition cell : Type := option string.

(** A cell of a frame read with [dtype=str]: a string; NaN, where the
    field is empty or an NA marker; or [None], which the Python engine puts
    where a line has fewer fields than the frame has columns. *)
Inductive value : Type :=
| Text (s : string)
| NaN
| PyNone.

(** What an insert binds for a frame cell: a missing value of either kind
    is stored as NULL. *)
Definition sql_value (v : value) : cell :=
  match v with
  | Text s => Some s
  | NaN => None
  | PyNone => None
  end.

(** A column label as the parser gives it: a position when the file was
    read with [header=None], a string when a header row was consumed. *)
Inductive label : Type :=
| LInt (n : nat)
| LStr (s : string).

(** [str(col)] *)
Definition str_of_label (l : label) : string :=
  match l with
  | LInt n => Py.str_of_nat n
  | LStr s => s
  end.

Record RawFrame : Type := { raw_columns : list label; raw_rows : list (list value) }.

Record Frame : Type := { columns : list string; rows : list (list value) }.

(** [df.shape[1]] *)
Definition width (df : RawFrame) : nat := length (raw_columns df).

(** [df.empty or df.shape[1] < 1] *)
Definition is_empty (df : RawFrame) : bool :=
  match raw_rows df, raw_columns df with
  | [], _ => true
  | _, [] => true
  | _, _ => (width df <? 1)%nat
  end.

(** [[f"column_{i+1}" for i in range(n)]] *)
Definition synthetic_columns (n : nat) : list string :=
  map (fun i => "column_" ++ Py.str_of_nat (i + 1)) (seq 0 n).

(** [[str(col) if str(col).strip() else f"column_{i+1}"
      for i, col in enumerate(df.columns)]] *)
Fixpoint header_columns_from (i : nat) (cols : list label) : list string :=
  match cols with
  | [] => []
  | col :: r =>
      (if Py.truthy (Py.strip (str_of_label col))
       then str_of_label col
       else "column_" ++ Py.str_of_nat (i + 1))
      :: header_columns_from (S i) r
  end.

Definition header_columns (cols : list label) : list string :=
  header_columns_from 0 cols.

(** [df.iloc[:, :k]]: the leading [k] columns, all of them when there
    are fewer. *)
Definition iloc_columns (k : nat) (df : RawFrame) : RawFrame :=
  {| raw_columns := firstn k (raw_columns df);
     raw_rows := map (firstn k) (raw_rows df) |}.

(** [astype(str)] on one cell, as pandas 2 does it on a column of
    objects: [str] of the value, so NaN prints as [nan] and [None] as
    [None]. *)
Definition astype_str (c : value) : string :=
  match c with
  | Text s => s
  | NaN => "nan"
  | PyNone => "None"
  end.

(** The join of the string-coerced cells of a row, with the empty
    string as separator. *)
Definition row_text (row : list value) : string :=
  String.concat EmptyString (map astype_str row).

(* ================================================================== *)
(** * The libraries the program calls *)

(** Outcome of a call into [csv.Sniffer]: a value, [csv.Error], or any
    other exception. *)
Inductive attempt (A : Type) : Type :=
| Returned (a : A)
| CsvError
| OtherError.
Arguments Returned {A} a.
Arguments CsvError {A}.
Arguments OtherError {A}.

Record Env : Type := {
  (** [hashlib.sha256(b).hexdigest()] *)
  sha256_hex : string -> string;
  (** the text of a file opened with [encoding='utf-8', errors='ignore'] *)
  decode : string -> string;
  (** [csv.Sniffer().sniff(sample).delimiter] *)
  sniff : string -> attempt string;
  (** [csv.Sniffer().has_header(sample)] *)
  has_header : string -> attempt bool;
  (** [pd.read_csv(f, dtype=str, delimiter=d, header=0 if h else None,
      on_bad_lines='skip', engine='python')] on a file with the given
      content; [None] when it raises. *)
  read_csv : string -> string -> bool -> option RawFrame
}.

(** The file system: the bytes of a path, or [None] where [open] raises. *)
Definition FileSystem : Type := string -> option string.

(** The digest of line 90: SHA-256, in hexadecimal, of the UTF-8 bytes
    of the joined row. *)
Definition row_digest (E : Env) (row : list value) : string :=
  sha256_hex E (Py.utf8_encode (row_text row)).

(* ================================================================== *)
(** * The SQLite store *)

Record Table : Type := { t_columns : list string; t_rows : list (list cell) }.

Module Sqlite.

(** SQLite folds the case of the ASCII letters only. *)
Definition fold_char (c : ascii) : ascii :=
  if Py.is_ascii_upper c then ascii_of_nat (Py.code c + 32) else c.

(** Identifiers (column names) are compared without regard to ASCII case. *)
Definition name_eqb (a b : string) : bool :=
  String.eqb (Py.map_string fold_char a) (Py.map_string fold_char b).

Fixpoint column_index (name : string) (cols : list string) : option nat :=
  match cols with
  | [] => None
  | c :: r =>
      if name_eqb name c then Some 0
      else option_map S (column_index name r)
  end.

Definition has_column (cols : list string) (name : string) : bool :=
  match column_index name cols with Some _ => true | None => false end.

Fixpoint has_duplicate (cols : list string) : bool :=
  match cols with
  | [] => false
  | c :: r => has_column r c || has_duplicate r
  end.

Definition has_dquote (s : string) : bool :=
  Py.exists_string (fun c => (Py.code c =? 34)%nat) s.

(** The tables of the program have names in lower case, which
    [generate_table_name] gives them: the names are compared as they are. *)
Fixpoint find_table (name : string) (db : list (string * Table)) : option Table :=
  match db with
  | [] => None
  | (n, t) :: r => if String.eqb n name then Some t else find_table name r
  end.

Fixpoint update_table (name : string) (t' : Table) (db : list (string * Table))
  : list (string * Table) :=
  match db with
  | [] => []
  | (n, t) :: r =>
      if String.eqb n name then (n, t') :: r
      else (n, t) :: update_table name t' r
  end.

(** [CREATE TABLE IF NOT EXISTS 'name' ("c1" TEXT, ...)].  A new table may
    not repeat a column name.  A column name that holds a double quote
    ends the quoted name early: the statement is no longer the one meant,
    and is taken to fail.  What is proved of new tables is proved for names
    without a double quote, or does not depend on this. *)
Definition create_table_if_not_exists (name : string) (cols : list string)
    (db : list (string * Table)) : option (list (string * Table)) :=
  if existsb has_dquote cols then None
  else match find_table name db with
       | Some _ => Some db
       | None =>
           if has_duplicate cols then None
           else Some (db ++ [(name, {| t_columns := cols; t_rows := [] |})])%list
       end.

(** [SELECT _hash FROM 'name'] *)
Definition select_hash (name : string) (db : list (string * Table))
  : option (list cell) :=
  match find_table name db with
  | None => None
  | Some t =>
      match column_index "_hash" (t_columns t) with
      | None => None
      | Some i => Some (map (fun r => nth i r None) (t_rows t))
      end
  end.

(** The row stored for a frame row: each column of the table takes the
    value of the frame column of that name, NULL when there is none. *)
Definition align (frame_cols table_cols : list string) (row : list cell)
  : list cell :=
  map (fun tc => match column_index tc frame_cols with
                 | Some j => nth j row None
                 | None => None
                 end) table_cols.

(** [new_rows.to_sql(name, conn, if_exists='append', index=False)]: the
    insert names the frame's columns, and fails on one the table lacks. *)
Definition to_sql (name : string) (frame_cols : list string)
    (new_rows : list (list cell)) (db : list (string * Table))
  : option (list (string * Table)) :=
  match find_table name db with
  | None =>
      Some (db ++ [(name, {| t_columns := frame_cols; t_rows := new_rows |})])%list
  | Some t =>
      if forallb (has_column (t_columns t)) frame_cols then
        Some (update_table name
                {| t_columns := t_columns t;
                   t_rows := (t_rows t ++ map (align frame_cols (t_columns t)) new_rows)%list |}
                db)
      else None
  end.

(** [SELECT 1 FROM imported_files WHERE filename = ? AND filehash = ?] *)
Definition ledger_has (f h : string) (l : list (string * string)) : bool :=
  existsb (fun e => String.eqb (fst e) f && String.eqb (snd e) h) l.

(** [INSERT OR REPLACE INTO imported_files (filename, filehash)], with
    [filename] the primary key. *)
Definition ledger_put (f h : string) (l : list (string * string))
  : list (string * string) :=
  (filter (fun e => negb (String.eqb (fst e) f)) l ++ [(f, h)])%list.

End Sqlite.

(* ================================================================== *)
(** * Program state and exceptions *)

(** The database file and the module-level list [common_column_count]. *)
Record State : Type := {
  ledger : list (string * string);
  tables : list (string * Table);
  common_column_count : list nat
}.

Definition set_tables (db : list (string * Table)) (st : State) : State :=
  {| ledger := ledger st; tables := db; common_column_count := common_column_count st |}.

Definition set_ledger (l : list (string * string)) (st : State) : State :=
  {| ledger := l; tables := tables st; common_column_count := common_column_count st |}.

(** A computation that reads and writes the state and may raise.  What was
    written before the exception stays written: nothing in the program rolls
    back. *)
Inductive result (A : Type) : Type :=
| Ok (a : A)
| Raise.
Arguments Ok {A} a.
Arguments Raise {A}.

Definition M (A : Type) : Type := State -> result A * State.

Definition ret {A} (a : A) : M A := fun st => (Ok a, st).
Definition raise {A} : M A := fun st => (Raise, st).
Definition bind {A B} (m : M A) (k : A -> M B) : M B :=
  fun st => match m st with
            | (Ok a, st') => k a st'
            | (Raise, st') => (Raise, st')
            end.

Notation "x <- m ;; k" := (bind m (fun x => k))
  (at level 61, m at next level, right associativity).
Notation "m ;;; k" := (bind m (fun _ => k))
  (at level 61, right associativity).

(** [try: m except Exception: h] *)
Definition try_except {A} (m h : M A) : M A :=
  fun st => match m st with
            | (Ok a, st') => (Ok a, st')
            | (Raise, st') => h st'
            end.

Definition of_option {A} (o : option A) : M A :=
  match o with Some a => ret a | None => raise end.

Definition get_state : M State := fun st => (Ok st, st).

(** A database statement: it rewrites the tables or raises. *)
Definition exec (stmt : list (string * Table) -> option (list (string * Table)))
  : M unit :=
  fun st => match stmt (tables st) with
            | Some db => (Ok tt, set_tables db st)
            | None => (Raise, st)
            end.

Definition add_count (n : nat) (st : State) : State :=
  {| ledger := ledger st; tables := tables st;
     common_column_count := (common_column_count st ++ [n])%list |}.

(** [common_column_count.append(n)] *)
Definition append_count (n : nat) : M unit :=
  fun st => (Ok tt, add_count n st).

(** [cur.execute("INSERT OR REPLACE INTO imported_files ...")] and the commit. *)
Definition record_import (f filehash : string) : M unit :=
  fun st => (Ok tt, set_ledger (Sqlite.ledger_put f filehash (ledger st)) st).

(* ================================================================== *)
(** * The import pipeline *)

(** What the program prints for a file. *)
Inductive outcome : Type :=
| Skipped
| Imported (n : nat)
| NoNewData
| FallbackImported (n : nat)
| FallbackNoNewData
| Failed.

Definition has_hash_label (cols : list string) : bool :=
  existsb (String.eqb "_hash") cols.

(** The columns of the frame after [df['_hash'] = ...]: the assignment
    adds the column, or overwrites one that carries this label already. *)
Definition columns_with_hash (cols : list string) : list string :=
  if has_hash_label cols then cols else (cols ++ ["_hash"])%list.

(** One row of the frame after [df['_hash'] = ...]. *)
Definition with_hash (E : Env) (cols : list string) (row : list value) : list value :=
  let h := row_digest E row in
  if has_hash_label cols
  then map (fun cv => if String.eqb (fst cv) "_hash" then Text h else snd cv)
           (combine cols row)
  else (row ++ [Text h])%list.

(** [h in existing_hashes] *)
Definition isin (h : string) (existing_hashes : list cell) : bool :=
  existsb (fun c => match c with Some x => String.eqb x h | None => false end)
          existing_hashes.

(** [df[~df['_hash'].isin(existing_hashes)]], each row paired with its digest. *)
Definition dedupe (E : Env) (df : Frame) (existing_hashes : list cell)
  : list (string * list value) :=
  filter (fun hr => negb (isin (fst hr) existing_hashes))
         (map (fun row => (row_digest E row, with_hash E (columns df) row)) (rows df)).

(** [cur.execute(f"SELECT _hash FROM '{table_name}'")] and the set built
    from what it fetches. *)
Definition select_hashes (table_name : string) : M (list cell) :=
  fun st => match Sqlite.select_hash table_name (tables st) with
            | Some hs => (Ok hs, st)
            | None => (Raise, st)
            end.

(** Lines 90-107, and again 116-131: digest the rows, create the table if
    it is absent, drop the rows whose digest the table holds, append the
    rest, write the ledger. *)
Definition persist (E : Env) (on_fallback : bool) (f filehash : string) (df : Frame)
  : M outcome :=
  let cols := columns_with_hash (columns df) in
  let table_name := generate_table_name f in
  exec (Sqlite.create_table_if_not_exists table_name cols) ;;;
  existing_hashes <- select_hashes table_name ;;
  let new_rows := dedupe E df existing_hashes in
  match new_rows with
  | [] =>
      record_import f filehash ;;;
      ret (if on_fallback then FallbackNoNewData else NoNewData)
  | _ :: _ =>
      exec (Sqlite.to_sql table_name cols (map (map sql_value) (map snd new_rows))) ;;;
      record_import f filehash ;;;
      ret (if on_fallback then FallbackImported (length new_rows)
           else Imported (length new_rows))
  end.

(** The body of the outer [try], lines 62-107. *)
Definition primary (E : Env) (f filehash content : string) : M outcome :=
  let sample := substring 0 2048 (decode E content) in
  delimiter <- match sniff E sample with
               | Returned d => ret d
               | CsvError => ret ","
               | OtherError => raise
               end ;;
  has_hdr <- match has_header E sample with
             | Returned b => ret b
             | CsvError => ret false
             | OtherError => raise
             end ;;
  df <- match read_csv E content delimiter has_hdr with
        | Some df => ret df
        | None => of_option (read_csv E content delimiter false)
        end ;;
  if is_empty df then raise
  else
    let cols := if negb has_hdr then synthetic_columns (width df)
                else header_columns (raw_columns df) in
    append_count (width df) ;;;
    persist E false f filehash {| columns := cols; rows := raw_rows df |}.

(** The body of the inner [try], lines 112-131.  The call of [read_csv]
    passes no delimiter: the parser takes its default, the comma. *)
Definition fallback (E : Env) (f filehash content : string) : M outcome :=
  st <- get_state ;;
  let fallback_cols := infer_columns_structure (common_column_count st) in
  df <- of_option (read_csv E content "," false) ;;
  let df := iloc_columns fallback_cols df in
  persist E true f filehash
    {| columns := synthetic_columns (width df); rows := raw_rows df |}.

(** Lines 62-81 on their own: they touch no state.  The header flag and
    the frame the primary path goes on with, or [None] when it raises
    before line 83. *)
Definition parse_primary (E : Env) (content : string) : option (bool * RawFrame) :=
  let sample := substring 0 2048 (decode E content) in
  match sniff E sample, has_header E sample with
  | OtherError, _ => None
  | _, OtherError => None
  | s, hh =>
      let delimiter := match s with Returned d => d | _ => "," end in
      let has_hdr := match hh with Returned b => b | _ => false end in
      match (match read_csv E content delimiter has_hdr with
             | Some df => Some df
             | None => read_csv E content delimiter false
             end) with
      | None => None
      | Some df => if is_empty df then None else Some (has_hdr, df)
      end
  end.

(** Lines 83-86. *)
Definition primary_columns (has_hdr : bool) (df : RawFrame) : list string :=
  if negb has_hdr then synthetic_columns (width df)
  else header_columns (raw_columns df).

(** One iteration of the loop over [csv_files].  [None]: an exception left
    the loop, and with it [import_csvs_to_db]. *)
Definition import_file (E : Env) (fs : FileSystem) (f : string) (st : State)
  : option (outcome * State) :=
  match fs f with
  | None => None
  | Some content =>
      let filehash := sha256_hex E content in
      if Sqlite.ledger_has f filehash (ledger st) then Some (Skipped, st)
      else
        match primary E f filehash content st with
        | (Ok o, st1) => Some (o, st1)
        | (Raise, st1) =>
            match fallback E f filehash content st1 with
            | (Ok o, st2) => Some (o, st2)
            | (Raise, st2) => Some (Failed, st2)
            end
        end
  end.

(** How a call of [import_csvs_to_db] ends: it returns, with what it did
    for each file, or an exception propagates while it handles [f]. *)
Inductive run : Type :=
| Finished (st : State) (log : list (string * outcome))
| Aborted (st : State) (log : list (string * outcome)) (f : string).

Fixpoint import_loop (E : Env) (fs : FileSystem) (csv_files : list string)
    (st : State) (log : list (string * outcome)) : run :=
  match csv_files with
  | [] => Finished st log
  | f :: rest =>
      match import_file E fs f st with
      | None => Aborted st log f
      | Some (o, st') => import_loop E fs rest st' (log ++ [(f, o)])%list
      end
  end.

(** [import_csvs_to_db(folder_path)], with [csv_files] what [glob] lists. *)
Definition import_csvs_to_db (E : Env) (fs : FileSystem) (csv_files : list string)
    (st : State) : run :=
  import_loop E fs csv_files st [].

(** Rows a log entry stands for. *)
Definition rows_inserted (o : outcome) : nat :=
  match o with
  | Imported n | FallbackImported n => n
  | _ => 0
  end.

Definition total_inserted (log : list (string * outcome)) : nat :=
  fold_right (fun e acc => rows_inserted (snd e) + acc) 0 log.

(* ================================================================== *)
(** * Searching *)

Module Sql.

(** The words SQLite's tokenizer treats as keywords, in lower case. *)
Definition keywords : list string :=
  [ "abort"; "action"; "add"; "after"; "all"; "alter"; "always"; "analyze";
    "and"; "as"; "asc"; "attach"; "autoincrement"; "before"; "begin";
    "between"; "by"; "cascade"; "case"; "cast"; "check"; "collate"; "column";
    "commit"; "conflict"; "constraint"; "create"; "cross"; "current";
    "current_date"; "current_time"; "current_timestamp"; "database";
    "default"; "deferrable"; "deferred"; "delete"; "desc"; "detach";
    "distinct"; "do"; "drop"; "each"; "else"; "end"; "escape"; "except";
    "exclude"; "exclusive"; "exists"; "explain"; "fail"; "filter"; "first";
    "following"; "for"; "foreign"; "from"; "full"; "generated"; "glob";
    "group"; "groups"; "having"; "if"; "ignore"; "immediate"; "in"; "index";
    "indexed"; "initially"; "inner"; "insert"; "instead"; "intersect";
    "into"; "is"; "isnull"; "join"; "key"; "last"; "left"; "like"; "limit";
    "match"; "materialized"; "natural"; "no"; "not"; "nothing"; "notnull";
    "null"; "nulls"; "of"; "offset"; "on"; "or"; "order"; "others"; "outer";
    "over"; "partition"; "plan"; "pragma"; "preceding"; "primary"; "query";
    "raise"; "range"; "recursive"; "references"; "regexp"; "reindex";
    "release"; "rename"; "replace"; "restrict"; "returning"; "right";
    "rollback"; "row"; "rows"; "savepoint"; "select"; "set"; "table";
    "temp"; "temporary"; "then"; "ties"; "to"; "transaction"; "trigger";
    "unbounded"; "union"; "unique"; "update"; "using"; "vacuum"; "values";
    "view"; "virtual"; "when"; "where"; "window"; "with"; "without" ].

Definition is_keyword (s : string) : bool :=
  existsb (String.eqb (Py.map_string Sqlite.fold_char s)) keywords.

Definition ident_start (c : ascii) : bool :=
  Py.is_ascii_upper c || Py.is_ascii_lower c || (Py.code c =? 95)%nat
  || (128 <=? Py.code c)%nat.

Definition ident_char (c : ascii) : bool :=
  ident_start c || Py.is_ascii_digit c || (Py.code c =? 36)%nat.

(** A text the tokenizer reads as one identifier that is no keyword. *)
Definition is_identifier (s : string) : bool :=
  match s with
  | EmptyString => false
  | String c r => ident_start c && Py.forall_string ident_char r && negb (is_keyword s)
  end.

(** A text the tokenizer reads as one integer literal whose text form is
    itself: digits, no leading zero, short enough for a 64-bit integer. *)
Definition is_integer_literal (s : string) : bool :=
  match s with
  | EmptyString => false
  | String c r =>
      Py.forall_string Py.is_ascii_digit s
      && (String.length s <=? 18)%nat
      && (negb (Py.code c =? 48)%nat || (String.length s =? 1)%nat)
  end.

Definition space : ascii := ascii_of_nat 32.

Definition words (s : string) : list string :=
  filter Py.truthy (Py.split_on space s).

(** Two or more identifiers, none a keyword, separated by spaces. *)
Definition is_identifier_sequence (s : string) : bool :=
  (2 <=? length (words s))%nat
  && forallb (fun p => negb (Py.truthy p) || is_identifier p) (Py.split_on space s).

(** What a column name means when it is pasted bare in front of [LIKE ?].
    Texts outside these three shapes are not modelled. *)
Inductive operand : Type :=
| OColumn (name : string)
| OLiteral (text : string)
| OSyntaxError
| OUnmodelled.

Definition classify (col : string) : operand :=
  if is_identifier col then OColumn col
  else if is_integer_literal col then OLiteral col
  else if is_identifier_sequence col then OSyntaxError
  else OUnmodelled.

(** [text LIKE pattern] with the default settings: [%] matches any run
    of characters, [_] any one character, and any other character itself
    up to the case of ASCII letters.  No escape character. *)
Fixpoint like (pattern : string) : string -> bool :=
  match pattern with
  | EmptyString =>
      fun text => match text with EmptyString => true | _ => false end
  | String p pattern' =>
      if (Py.code p =? 37)%nat then
        fix star (text : string) : bool :=
          like pattern' text
          || match text with
             | EmptyString => false
             | String _ text' => star text'
             end
      else if (Py.code p =? 95)%nat then
        fun text => match text with
                    | EmptyString => false
                    | String _ text' => like pattern' text'
                    end
      else
        fun text => match text with
                    | EmptyString => false
                    | String c text' =>
                        Ascii.eqb (Sqlite.fold_char p) (Sqlite.fold_char c)
                        && like pattern' text'
                    end
  end.

(** The value of an operand in a row; [None] is NULL. *)
Definition operand_value (all_columns : list string) (row : list cell)
    (o : operand) : cell :=
  match o with
  | OColumn name =>
      match Sqlite.column_index name all_columns with
      | Some i => nth i row None
      | None => None
      end
  | OLiteral text => Some text
  | _ => None
  end.

(** [operand LIKE pattern] as a condition: NULL counts as false. *)
Definition like_holds (all_columns : list string) (row : list cell)
    (o : operand) (pattern : string) : bool :=
  match operand_value all_columns row o with
  | Some text => like pattern text
  | None => false
  end.

Inductive answer : Type :=
| Rows (rows : list (list cell))
| SqlError
| Unmodelled.

Definition is_unmodelled (o : operand) : bool :=
  match o with OUnmodelled => true | _ => false end.

Definition is_error (all_columns : list string) (o : operand) : bool :=
  match o with
  | OSyntaxError => true
  | OColumn name => negb (Sqlite.has_column all_columns name)
  | _ => false
  end.

(** [SELECT * FROM 'table' WHERE (c1 LIKE ? OR c2 LIKE ? ...) AND (...)]
    run with the patterns [args], one group per entry of [groups], the
    texts [c1], [c2], ... of a group pasted bare.  An empty conjunction
    and an empty pair of brackets are syntax errors. *)
Definition select_where (t : Table) (groups : list (list string * string))
  : answer :=
  let operands := flat_map (fun g => map classify (fst g)) groups in
  if existsb is_unmodelled operands then Unmodelled
  else if match groups with [] => true | _ => false end then SqlError
  else if existsb (fun g => match fst g with [] => true | _ => false end) groups
  then SqlError
  else if existsb (is_error (t_columns t)) operands then SqlError
  else
    Rows (filter
            (fun row =>
               forallb (fun g =>
                          existsb (fun col =>
                                     like_holds (t_columns t) row (classify col) (snd g))
                                  (fst g))
                       groups)
            (t_rows t)).

End Sql.

(** [row_dict.get(col, default)] on [row_dict = dict(zip(all_columns, row))]:
    the value zipped last with this key; [None] stands for the default, the
    empty string. *)
Definition dict_get (col : string) (d : list (string * cell)) : option cell :=
  option_map snd (find (fun kv => String.eqb (fst kv) col) (rev d)).

(** [str(...)] of what [dict_get] gives; a NULL prints as [None]. *)
Definition display_cell (o : option cell) : string :=
  match o with
  | None => EmptyString
  | Some None => "None"
  | Some (Some v) => v
  end.

Definition display_row (all_columns columns : list string) (row : list cell)
  : list string :=
  map (fun col => display_cell (dict_get col (combine all_columns row))) columns.

(** What [search_db] prints for one table. *)
Inductive table_report : Type :=
| Matches (columns : list string) (display : list (list string))
| Nothing
| SearchFailed
| NotModelled.

(** The body of the loop of [search_db], lines 147-175. *)
Definition search_table (keyword : string) (t : Table) : table_report :=
  let all_columns := t_columns t in
  match all_columns with
  | [] => Nothing
  | _ :: _ =>
      let columns := filter (fun col => negb (String.eqb col "_hash")) all_columns in
      let terms := Py.split keyword in
      let groups := map (fun term => (columns, "%" ++ term ++ "%")) terms in
      match Sql.select_where t groups with
      | Sql.Rows [] => Nothing
      | Sql.Rows rows => Matches columns (map (display_row all_columns columns) rows)
      | Sql.SqlError => SearchFailed
      | Sql.Unmodelled => NotModelled
      end
  end.

(** [search_db(keyword)]: one report per table whose name starts with
    [TABLE_PREFIX], in the order of [sqlite_master]. *)
Definition search_db (keyword : string) (st : State) : list (string * table_report) :=
  map (fun nt => (fst nt, search_table keyword (snd nt)))
      (filter (fun nt => Py.startswith TABLE_PREFIX (fst nt)) (tables st)).

Definition found_any (reports : list (string * table_report)) : bool :=
  existsb (fun r => match snd r with Matches _ _ => true | _ => false end) reports.

(* ================================================================== *)
(** * A concrete environment for the examples *)

Module Example.

Definition newline : ascii := ascii_of_nat 10.

(** The text of a file given by its lines. *)
Fixpoint unlines (l : list string) : string :=
  match l with
  | [] => EmptyString
  | x :: r => x ++ String newline (unlines r)
  end.

(** With the default NA filter an empty field becomes NaN. *)
Definition to_cell (s : string) : value :=
  if Py.truthy s then Text s else NaN.

(** A row with fewer fields than columns is filled with [None]. *)
Definition pad (n : nat) (row : list value) : list value :=
  (row ++ repeat PyNone (n - length row))%list.

(** A row with more fields than columns is a bad line and is skipped. *)
Definition data_rows (sep : ascii) (n : nat) (lines : list string)
  : list (list value) :=
  map (pad n)
      (filter (fun r => (length r <=? n)%nat)
              (map (fun l => map to_cell (Py.split_on sep l)) lines)).

(** The label of a header field: an empty one is named by its position. *)
Fixpoint header_labels (i : nat) (fields : list string) : list label :=
  match fields with
  | [] => []
  | x :: r =>
      (if Py.truthy x then LStr x else LStr ("Unnamed: " ++ Py.str_of_nat i))
      :: header_labels (S i) r
  end.

(** What [pd.read_csv] returns on plain input: lines ended by a newline,
    no quotes, no NA markers other than the empty field, no repeated
    header name, a separator of one character.  The examples use nothing
    else.  A file without a non-blank line raises. *)
Definition plain_read_csv (content delimiter : string) (header : bool)
  : option RawFrame :=
  match delimiter with
  | String sep EmptyString =>
      match filter Py.truthy (Py.split_on newline content) with
      | [] => None
      | first :: rest =>
          let fields := Py.split_on sep first in
          let n := length fields in
          if header
          then Some {| raw_columns := header_labels 0 fields;
                       raw_rows := data_rows sep n rest |}
          else Some {| raw_columns := map LInt (seq 0 n);
                       raw_rows := data_rows sep n (first :: rest) |}
      end
  | _ => None
  end.

(** The files of the examples. *)
Definition three_columns : string := unlines ["1,2,3"; "4,5,6"].
Definition four_columns : string := unlines ["1,2,3,4"; "5,6,7,8"].
Definition two_columns : string := unlines ["1,2"; "3,4"].
Definition repeated_header : string :=
  unlines ["Qty,qty,n,m,k"; "1,2,3,4,5"; "6,7,8,9,10"].
Definition semicolons : string := unlines ["Qty;qty"; "1;2"; "3;4"].
Definition mixed_separators : string := unlines ["a;b,c,d"; "5;6"; "7;8"].
Definition with_header : string := unlines ["item,qty"; "nut,3"; "bolt,12"].
Definition blank_header : string := unlines ["Name,,Age"; "Alice,x,30"; "Bob,y,25"].
Definition twice_the_same : string := unlines ["nut,3"; "nut,3"].
Definition people : string :=
  unlines ["name,city,zip"; "John Doe,Paris,75001"; "jane,Rome,00100"].
Definition years : string := unlines ["country,pop,area,2020"; "fr,1,2,3"; "de,4,5,6"].
Definition prices : string := unlines ["unit price,qty"; "5,1"; "7,2"].

(** What [csv.Sniffer] reports on these files: the delimiter, and whether
    the first row is a header. *)
Definition sniffed : list (string * (string * bool)) :=
  [ (three_columns, (",", false));
    (four_columns, (",", false));
    (two_columns, (",", false));
    (repeated_header, (",", true));
    (semicolons, (";", true));
    (mixed_separators, (";", true));
    (with_header, (",", true));
    (blank_header, (",", true));
    (twice_the_same, (",", false));
    (people, (",", true));
    (years, (",", true));
    (prices, (",", true)) ].

Definition lookup (sample : string) : option (string * bool) :=
  option_map snd (find (fun e => String.eqb (fst e) sample) sniffed).

(** The environment of the examples.  The digest is a stand-in, the
    identity: no example depends on what a digest looks like. *)
Definition env : Env :=
  {| sha256_hex := fun b => b;
     decode := fun b => b;
     sniff := fun sample => match lookup sample with
                            | Some (d, _) => Returned d
                            | None => CsvError
                            end;
     has_header := fun sample => match lookup sample with
                                 | Some (_, h) => Returned h
                                 | None => CsvError
                                 end;
     read_csv := plain_read_csv |}.

(** A folder given by the content of its files; any other path cannot be
    opened. *)
Definition folder (files : list (string * string)) : FileSystem :=
  fun path => option_map snd (find (fun e => String.eqb (fst e) path) files).

(** A fresh process on an empty database. *)
Definition fresh : State :=
  {| ledger := []; tables := []; common_column_count := [] |}.

Definition e_acute : ascii := ascii_of_nat 233.

End Example.

(* ================================================================== *)
(** * The menu *)

(** What the menu asks of the file system: [os.path.isdir], and what
    [glob.glob(os.path.join(folder, "*.csv"))] lists. *)
Record Folders : Type := {
  isdir : string -> bool;
  glob_csv : string -> list string
}.

(** What one turn of the menu does. *)
Inductive event : Type :=
| ImportRan (folder : string) (r : run)
| InvalidFolder
| SearchRan (keyword : string) (reports : list (string * table_report))
| EmptyKeyword
| Goodbye
| InvalidChoice.

(** How [main] ends: the user chose to exit; [input] met the end of its
    input and raised [EOFError], which nothing catches; or an exception
    left [import_csvs_to_db]. *)
Inductive ending : Type :=
| Exited
| EndOfInput
| Crashed.

Definition emit (ev : event) (r : ending * State * list event)
  : ending * State * list event :=
  match r with
  | (e, st, trace) => (e, st, ev :: trace)
  end.

(** [main()], fed with the lines that [input] returns one after the other. *)
Fixpoint main (E : Env) (fs : FileSystem) (W : Folders) (inputs : list string)
    (st : State) : ending * State * list event :=
  match inputs with
  | [] => (EndOfInput, st, [])
  | line :: rest =>
      let choice := Py.strip line in
      if String.eqb choice "1" then
        match rest with
        | [] => (EndOfInput, st, [])
        | line2 :: rest2 =>
            let folder := Py.strip line2 in
            if isdir W folder then
              match import_csvs_to_db E fs (glob_csv W folder) st with
              | Finished st' log =>
                  emit (ImportRan folder (Finished st' log)) (main E fs W rest2 st')
              | Aborted st' log f =>
                  (Crashed, st', [ImportRan folder (Aborted st' log f)])
              end
            else emit InvalidFolder (main E fs W rest2 st)
        end
      else if String.eqb choice "2" then
        match rest with
        | [] => (EndOfInput, st, [])
        | line2 :: rest2 =>
            let keyword := Py.strip line2 in
            if Py.truthy keyword
            then emit (SearchRan keyword (search_db keyword st)) (main E fs W rest2 st)
            else emit EmptyKeyword (main E fs W rest2 st)
        end
      else if String.eqb choice "3" then (Exited, st, [Goodbye])
      else emit InvalidChoice (main E fs W rest st)
  end.

(* ================================================================== *)
(** * Predicates on tables *)

(** A table as the program makes them: column names that differ even up
    to case, a column [_hash], and rows with one cell per column. *)
Definition table_ok (t : Table) : Prop :=
  Sqlite.has_duplicate (t_columns t) = false
  /\ Sqlite.has_column (t_columns t) "_hash" = true
  /\ Forall (fun row => length row = length (t_columns t)) (t_rows t).

Definition db_ok (db : list (string * Table)) : Prop :=
  Forall (fun nt => table_ok (snd nt)) db.

(** [db'] holds every table of [db], with the same columns and with the
    rows of [db] followed by further ones. *)
Definition grows (db db' : list (string * Table)) : Prop :=
  forall name t,
    Sqlite.find_table name db = Some t ->
    exists t',
      Sqlite.find_table name db' = Some t'
      /\ t_columns t' = t_columns t
      /\ exists more, t_rows t' = (t_rows t ++ more)%list.

(** The number of rows of a table; none for a table that does not exist. *)
Definition row_count (name : string) (db : list (string * Table)) : nat :=
  match Sqlite.find_table name db with
  | Some t => length (t_rows t)
  | None => 0
  end.

(** What handling one file can do to the tables: nothing; or [n] rows are
    appended to the table [name]; or the table [name] is made, with [n]
    rows. *)
Definition table_step (name : string) (n : nat) (db db' : list (string * Table))
  : Prop :=
  (db' = db /\ n = 0)
  \/ (exists t more,
        Sqlite.find_table name db = Some t
        /\ db' = Sqlite.update_table name
                   {| t_columns := t_columns t; t_rows := (t_rows t ++ more)%list |} db
        /\ length more = n
        /\ Forall (fun row => length row = length (t_columns t)) more)
  \/ (exists cols more,
        Sqlite.find_table name db = None
        /\ db' = (db ++ [(name, {| t_columns := cols; t_rows := more |})])%list
        /\ length more = n
        /\ table_ok {| t_columns := cols; t_rows := more |}).

(** The number of rows of all tables together. *)
Definition total_rows (db : list (string * Table)) : nat :=
  fold_right (fun nt acc => length (t_rows (snd nt)) + acc) 0 db.

(** Every table has a name that [search_db] keeps. *)
Definition all_prefixed (db : list (string * Table)) : Prop :=
  Forall (fun nt => Py.startswith TABLE_PREFIX (fst nt) = true) db.

(** The state a call of [import_csvs_to_db] leaves, however it ends, and
    what it printed. *)
Definition final_state (r : run) : State :=
  match r with
  | Finished st _ => st
  | Aborted st _ _ => st
  end.

Definition run_log (r : run) : list (string * outcome) :=
  match r with
  | Finished _ log => log
  | Aborted _ log _ => log
  end.

(** A frame with one cell per column in each row. *)
Definition rectangular (df : Frame) : Prop :=
  Forall (fun row => length row = length (columns df)) (rows df).

(** The column names the primary path gives the frame of a file hold no
    double quote: pasted between double quotes, they are the names the
    CREATE statement declares. *)
Definition quote_free (E : Env) (fs : FileSystem) (f : string) : Prop :=
  forall content has_hdr df,
    fs f = Some content ->
    parse_primary E content = Some (has_hdr, df) ->
    existsb Sqlite.has_dquote (primary_columns has_hdr df) = false.

(* ================================================================== *)
(** * Predicates on states *)

(** The ledger holds the file under the hash of its present content. *)
Definition recorded (E : Env) (fs : FileSystem) (st : State) (f : string) : Prop :=
  exists content,
    fs f = Some content
    /\ Sqlite.ledger_has f (sha256_hex E content) (ledger st) = true.


(** The columns [search_db] looks into. *)
Definition searched_columns (t : Table) : list string :=
  filter (fun col => negb (String.eqb col "_hash")) (t_columns t).



(** Two strings that differ at most in the case of ASCII letters. *)
Definition same_up_to_ascii_case (a b : string) : Prop :=
  Py.map_string Sqlite.fold_char a = Py.map_string Sqlite.fold_char b.



(* ================================================================== *)
(** * The specification's wording, for comparison *)

(** Following the specification: every character outside [[A-Za-z0-9_]]
    becomes an underscore. *)
Definition table_name_as_stated (file_path : string) : string :=
  TABLE_PREFIX
  ++ Py.lower (Py.map_string (fun c => if Py.is_ascii_word c then c else "_"%char)
                 (Py.splitext_root (Py.basename file_path))).

(** The same libraries with another sniffer. *)
Definition with_sniffer (E : Env) (sn : string -> attempt string)
    (hh : string -> attempt bool) : Env :=
  {| sha256_hex := sha256_hex E; decode := decode E;
     sniff := sn; has_header := hh; read_csv := read_csv E |}.

(** Following the specification: the most recent successful count, or 5. *)
Definition fallback_count_as_stated (counts : list nat) : nat := last counts 5.

(* ================================================================== *)
(** * Strings *)

Lemma length_map_string f s : String.length (Py.map_string f s) = String.length s.
Proof. induction s as [|c s IH]; simpl; congruence. Qed.

Lemma string_length_append a b :
  String.length (a ++ b) = String.length a + String.length b.
Proof. induction a as [|c a IH]; simpl; congruence. Qed.

Lemma get_map_string f s : forall i,
  String.get i (Py.map_string f s) = option_map f (String.get i s).
Proof.
  induction s as [|c s IH]; intros [|i]; simpl; auto.
Qed.

Lemma map_string_ext f g s :
  (forall c, f c = g c) -> Py.map_string f s = Py.map_string g s.
Proof. intros H; induction s as [|c s IH]; simpl; congruence. Qed.

Lemma map_string_ext_on f g s :
  (forall i c, String.get i s = Some c -> f c = g c) ->
  Py.map_string f s = Py.map_string g s.
Proof.
  induction s as [|c s IH]; simpl; intros H; auto.
  rewrite (H 0 c eq_refl). f_equal. apply IH. intros i d Hd. apply (H (S i) d Hd).
Qed.

Lemma map_string_compose f g s :
  Py.map_string f (Py.map_string g s) = Py.map_string (fun c => f (g c)) s.
Proof. induction s as [|c s IH]; simpl; congruence. Qed.

(** Below 128 the class [\w] is [[A-Za-z0-9_]]. *)
Lemma is_word_ascii c : (Py.code c < 128)%nat -> Py.is_word c = Py.is_ascii_word c.
Proof.
  destruct c as [[] [] [] [] [] [] [] []]; vm_compute; intros H; try reflexivity; lia.
Qed.

Lemma forall_string_get p s :
  Py.forall_string p s = true -> forall i c, String.get i s = Some c -> p c = true.
Proof.
  induction s as [|d s IH]; simpl; intros H i c Hi.
  - destruct i; discriminate.
  - apply andb_true_iff in H as [Hd Hs].
    destruct i as [|i]; [injection Hi as <-; exact Hd | exact (IH Hs i c Hi)].
Qed.

(* ================================================================== *)
(** * Table names *)

(** C8, amended.  For every path, the table name is the prefix [csv_table_]
    followed by the lower-case form, as [str.lower] gives it, of the stem
    (the path without directory and last extension) in which every
    character that [\w] does not match is replaced by an underscore: the
    replacement keeps the length and every character that [\w] matches,
    the underscore and any letter or digit, of ASCII or not.  When the stem
    is ASCII the name has one character for each character of the stem and
    is the one the specification describes with the class [A-Za-z0-9_]. *)
Theorem generate_table_name_shape (p : string) :
  exists replaced,
    generate_table_name p = TABLE_PREFIX ++ Py.lower replaced
    /\ String.length replaced = String.length (Py.splitext_root (Py.basename p))
    /\ (forall i c,
          String.get i (Py.splitext_root (Py.basename p)) = Some c ->
          String.get i replaced = Some (if Py.is_word c then c else "_"%char))
    /\ (Py.forall_string (fun c => (Py.code c <? 128)%nat)
          (Py.splitext_root (Py.basename p)) = true ->
        generate_table_name p = table_name_as_stated p
        /\ String.length (generate_table_name p)
           = String.length TABLE_PREFIX
             + String.length (Py.splitext_root (Py.basename p))).
Proof.
  exists (Py.sub_non_word (Py.splitext_root (Py.basename p))).
  split; [reflexivity|]. split; [|split].
  - unfold Py.sub_non_word. now rewrite length_map_string.
  - intros i c Hc. unfold Py.sub_non_word.
    now rewrite get_map_string, Hc.
  - intros Hascii. split.
    + unfold generate_table_name, table_name_as_stated.
      do 2 f_equal. unfold Py.sub_non_word.
      apply map_string_ext_on. intros i c Hc.
      rewrite is_word_ascii; [reflexivity|].
      apply Nat.ltb_lt. exact (forall_string_get _ _ Hascii i c Hc).
    + unfold generate_table_name, Py.lower, Py.sub_non_word.
      now rewrite string_length_append, !length_map_string.
Qed.

Lemma generate_table_name_shape_witness :
  generate_table_name "data/My File-1.CSV" = "csv_table_my_file_1".
Proof.
  destruct (generate_table_name_shape "data/My File-1.CSV") as (body & _ & _ & _ & H).
  rewrite (proj1 (H eq_refl)); reflexivity.
Defined.

(** C8, as stated, fails on a letter outside ASCII: in [data/cafe.csv]
    written with an acute accent (code point 233) the accented letter is
    kept, where the class [A-Za-z0-9_] would have it replaced. *)
Lemma generate_table_name_keeps_accented_letter :
  Py.is_ascii_word Example.e_acute = false
  /\ generate_table_name ("data/caf" ++ String Example.e_acute ".csv")
     = "csv_table_caf" ++ String Example.e_acute EmptyString
  /\ generate_table_name ("data/caf" ++ String Example.e_acute ".csv")
     <> table_name_as_stated ("data/caf" ++ String Example.e_acute ".csv").
Proof.
  repeat split; try reflexivity. vm_compute. discriminate.
Qed.

(* ================================================================== *)
(** * The steps of the pipeline, written out *)

(** [persist] without the monad: where it can raise, and the state it
    leaves in each case. *)
Lemma persist_eq E b f h df st :
  persist E b f h df st =
  match Sqlite.create_table_if_not_exists (generate_table_name f)
          (columns_with_hash (columns df)) (tables st) with
  | None => (Raise, st)
  | Some db1 =>
      match Sqlite.select_hash (generate_table_name f) db1 with
      | None => (Raise, set_tables db1 st)
      | Some hs =>
          match dedupe E df hs with
          | [] => (Ok (if b then FallbackNoNewData else NoNewData),
                   set_ledger (Sqlite.ledger_put f h (ledger st)) (set_tables db1 st))
          | (_ :: _) as new_rows =>
              match Sqlite.to_sql (generate_table_name f)
                      (columns_with_hash (columns df))
                      (map (map sql_value) (map snd new_rows)) db1 with
              | None => (Raise, set_tables db1 st)
              | Some db2 =>
                  (Ok (if b then FallbackImported (length new_rows)
                       else Imported (length new_rows)),
                   set_ledger (Sqlite.ledger_put f h (ledger st)) (set_tables db2 st))
              end
          end
      end
  end.
Proof.
  unfold persist, bind, exec, select_hashes, record_import, ret.
  destruct (Sqlite.create_table_if_not_exists _ _ _) as [db1|]; [|reflexivity].
  simpl.
  destruct (Sqlite.select_hash _ db1) as [hs|]; [|reflexivity].
  destruct (dedupe E df hs) as [|r new_rows]; [reflexivity|].
  simpl.
  destruct (Sqlite.to_sql _ _ _ db1) as [db2|]; reflexivity.
Qed.

Lemma width_iloc k df : width (iloc_columns k df) = Nat.min k (width df).
Proof. unfold width, iloc_columns; simpl. apply length_firstn. Qed.

(** [fallback] without the monad. *)
Lemma fallback_eq E f h content st :
  fallback E f h content st =
  match read_csv E content "," false with
  | None => (Raise, st)
  | Some df =>
      persist E true f h
        {| columns := synthetic_columns
                        (Nat.min (infer_columns_structure (common_column_count st))
                                 (width df));
           rows := map (firstn (infer_columns_structure (common_column_count st)))
                       (raw_rows df) |}
        st
  end.
Proof.
  unfold fallback, bind, get_state, of_option.
  destruct (read_csv E content "," false) as [df|]; [|reflexivity].
  unfold ret. now rewrite width_iloc.
Qed.

(** What a step leaves of the two parts of the state that no statement
    of the database touches. *)
Lemma persist_counts E b f h df st r st' :
  persist E b f h df st = (r, st') ->
  common_column_count st' = common_column_count st.
Proof.
  rewrite persist_eq. intros H.
  repeat (cbv zeta in H;
          match type of H with
          | context [match ?x with _ => _ end] => destruct x
          end);
    injection H as <- <-; reflexivity.
Qed.

Lemma persist_ledger E b f h df st r st' :
  persist E b f h df st = (r, st') ->
  ledger st' = match r with
               | Ok _ => Sqlite.ledger_put f h (ledger st)
               | Raise => ledger st
               end.
Proof.
  rewrite persist_eq. intros H.
  repeat (cbv zeta in H;
          match type of H with
          | context [match ?x with _ => _ end] => destruct x
          end);
    injection H as <- <-; reflexivity.
Qed.

(** [primary] without the monad. *)
Lemma primary_eq E f h content st :
  primary E f h content st =
  match parse_primary E content with
  | None => (Raise, st)
  | Some (has_hdr, df) =>
      persist E false f h
        {| columns := primary_columns has_hdr df; rows := raw_rows df |}
        (add_count (width df) st)
  end.
Proof.
  unfold primary, parse_primary, primary_columns, bind, ret, raise, of_option,
    append_count.
  cbv zeta.
  destruct (sniff E (substring 0 2048 (decode E content))) as [d| |];
    destruct (has_header E (substring 0 2048 (decode E content))) as [hh| |];
    try reflexivity;
    repeat match goal with
           | |- context [read_csv E ?c ?d ?b] =>
               destruct (read_csv E c d b) as [?|]; simpl
           end;
    try reflexivity;
    match goal with
    | |- context [is_empty ?df] => destruct (is_empty df); reflexivity
    end.
Qed.

Lemma primary_counts E f h content st r st' :
  primary E f h content st = (r, st') ->
  common_column_count st' = common_column_count st
  \/ exists n, common_column_count st' = (common_column_count st ++ [n])%list.
Proof.
  rewrite primary_eq.
  destruct (parse_primary E content) as [[hh df]|].
  - intros H. apply persist_counts in H. right. exists (width df). exact H.
  - intros [= <- <-]. now left.
Qed.

Lemma primary_ledger E f h content st r st' :
  primary E f h content st = (r, st') ->
  ledger st' = match r with
               | Ok _ => Sqlite.ledger_put f h (ledger st)
               | Raise => ledger st
               end.
Proof.
  rewrite primary_eq.
  destruct (parse_primary E content) as [[hh df]|].
  - intros H. apply persist_ledger in H. exact H.
  - intros [= <- <-]. reflexivity.
Qed.

Lemma fallback_counts E f h content st r st' :
  fallback E f h content st = (r, st') ->
  common_column_count st' = common_column_count st.
Proof.
  rewrite fallback_eq.
  destruct (read_csv E content "," false) as [df|].
  - apply persist_counts.
  - now intros [= <- <-].
Qed.

Lemma fallback_ledger E f h content st r st' :
  fallback E f h content st = (r, st') ->
  ledger st' = match r with
               | Ok _ => Sqlite.ledger_put f h (ledger st)
               | Raise => ledger st
               end.
Proof.
  rewrite fallback_eq.
  destruct (read_csv E content "," false) as [df|].
  - apply persist_ledger.
  - now intros [= <- <-].
Qed.

(* ================================================================== *)
(** * The list of column counts *)

Lemma import_file_counts E fs f st o st' :
  import_file E fs f st = Some (o, st') ->
  exists extra, common_column_count st' = (common_column_count st ++ extra)%list.
Proof.
  unfold import_file.
  destruct (fs f) as [content|]; [|discriminate].
  destruct (Sqlite.ledger_has _ _ _).
  { intros [= <- <-]. exists []. now rewrite app_nil_r. }
  destruct (primary E f _ content st) as [r1 st1] eqn:H1.
  assert (exists extra, common_column_count st1
                        = (common_column_count st ++ extra)%list) as [x1 Hx1].
  { destruct (primary_counts _ _ _ _ _ _ _ H1) as [->|[n ->]];
      [exists []; now rewrite app_nil_r | now exists [n]]. }
  destruct r1 as [o1|].
  { intros [= <- <-]. now exists x1. }
  destruct (fallback E f _ content st1) as [r2 st2] eqn:H2.
  apply fallback_counts in H2.
  destruct r2; intros [= <- <-]; exists x1; congruence.
Qed.

Lemma import_loop_counts E fs files : forall st log st' log',
  import_loop E fs files st log = Finished st' log' ->
  exists extra, common_column_count st' = (common_column_count st ++ extra)%list.
Proof.
  induction files as [|f files IH]; simpl; intros st log st' log' H.
  - injection H as <- <-. exists []. now rewrite app_nil_r.
  - destruct (import_file E fs f st) as [[o st1]|] eqn:Hf; [|discriminate].
    destruct (import_file_counts _ _ _ _ _ _ Hf) as [x1 Hx1].
    destruct (IH _ _ _ _ H) as [x2 Hx2].
    exists (x1 ++ x2)%list. now rewrite Hx2, Hx1, app_assoc.
Qed.

Lemma infer_is_head counts : infer_columns_structure counts = hd 5 counts.
Proof. now destruct counts. Qed.

(** C1, amended.  The fallback re-parse selects the leading [k] columns of
    every row - all of them when the row has fewer -, where [k] is the
    first column count recorded in the process so far, or 5 when none was
    recorded; and once a count is recorded the first one stays the first,
    whatever files are imported afterwards. *)
Theorem fallback_uses_first_recorded_count (E : Env) :
  (forall f h content st,
     fallback E f h content st =
     match read_csv E content "," false with
     | None => (Raise, st)
     | Some df =>
         persist E true f h
           {| columns := synthetic_columns
                           (Nat.min (hd 5 (common_column_count st)) (width df));
              rows := map (firstn (hd 5 (common_column_count st))) (raw_rows df) |}
           st
     end)
  /\ (forall fs files st st' log c rest,
        import_csvs_to_db E fs files st = Finished st' log ->
        common_column_count st = c :: rest ->
        infer_columns_structure (common_column_count st') = c).
Proof.
  split.
  - intros f h content st. rewrite fallback_eq, infer_is_head. reflexivity.
  - intros fs files st st' log c rest Hrun Hc.
    destruct (import_loop_counts _ _ _ _ _ _ _ Hrun) as [extra ->].
    now rewrite Hc.
Qed.

Lemma fallback_uses_first_recorded_count_witness :
  import_csvs_to_db Example.env
    (Example.folder [("d/b.csv", Example.four_columns)]) ["d/b.csv"]
    {| ledger := []; tables := []; common_column_count := [3] |}
  = Finished
      {| ledger := [("d/b.csv", Example.four_columns)];
         tables := [("csv_table_b",
                     {| t_columns := ["column_1"; "column_2"; "column_3";
                                      "column_4"; "_hash"];
                        t_rows := [[Some "1"; Some "2"; Some "3"; Some "4"; Some "1234"];
                                   [Some "5"; Some "6"; Some "7"; Some "8"; Some "5678"]] |})];
         common_column_count := [3; 4] |}
      [("d/b.csv", Imported 2)]
  /\ infer_columns_structure [3; 4] = 3.
Proof.
  assert (import_csvs_to_db Example.env
            (Example.folder [("d/b.csv", Example.four_columns)]) ["d/b.csv"]
            {| ledger := []; tables := []; common_column_count := [3] |}
          = Finished
              {| ledger := [("d/b.csv", Example.four_columns)];
                 tables := [("csv_table_b",
                             {| t_columns := ["column_1"; "column_2"; "column_3";
                                              "column_4"; "_hash"];
                                t_rows := [[Some "1"; Some "2"; Some "3"; Some "4"; Some "1234"];
                                           [Some "5"; Some "6"; Some "7"; Some "8"; Some "5678"]] |})];
                 common_column_count := [3; 4] |}
              [("d/b.csv", Imported 2)]) as Hrun by (vm_compute; reflexivity).
  split; [exact Hrun|].
  exact (proj2 (fallback_uses_first_recorded_count Example.env) _ _ _ _ _ 3 []
           Hrun eq_refl).
Defined.

(** C1, as stated, fails.  A fresh process imports [a.csv] (three
    columns), then [b.csv] (four), then [c.csv], whose header repeats a name
    up to case ([Qty], [qty]), so that creating its table raises and the
    file goes to the fallback.  The most recent successful count is 4 (or 5,
    the count of [c.csv] itself, already appended); the fallback keeps
    three columns, the count of the first file. *)
Lemma fallback_takes_first_not_latest :
  match import_csvs_to_db Example.env
          (Example.folder [("d/a.csv", Example.three_columns);
                           ("d/b.csv", Example.four_columns);
                           ("d/c.csv", Example.repeated_header)])
          ["d/a.csv"; "d/b.csv"; "d/c.csv"] Example.fresh with
  | Finished st log =>
      log = [("d/a.csv", Imported 2); ("d/b.csv", Imported 2);
             ("d/c.csv", FallbackImported 3)]
      /\ common_column_count st = [3; 4; 5]
      /\ option_map t_columns (Sqlite.find_table "csv_table_c" (tables st))
         = Some ["column_1"; "column_2"; "column_3"; "_hash"]
      /\ fallback_count_as_stated [3; 4] = 4
      /\ fallback_count_as_stated (common_column_count st) = 5
  | Aborted _ _ _ => False
  end.
Proof.
  vm_compute. repeat split.
Qed.

(* ================================================================== *)
(** * The delimiter of the fallback *)

(** C9.  The fallback re-parse reads the file with the comma as delimiter
    whatever the sniffer inferred: the fallback does not depend on the
    sniffer at all, and a file whose primary attempt raised is imported
    from [read_csv] called with a comma and without header. *)
Theorem fallback_reads_with_comma (E : Env) :
  (forall sn hh f h content st,
     fallback (with_sniffer E sn hh) f h content st = fallback E f h content st)
  /\ (forall fs f content st st1,
        fs f = Some content ->
        Sqlite.ledger_has f (sha256_hex E content) (ledger st) = false ->
        primary E f (sha256_hex E content) content st = (Raise, st1) ->
        import_file E fs f st =
        match read_csv E content "," false with
        | None => Some (Failed, st1)
        | Some df =>
            match persist E true f (sha256_hex E content)
                    {| columns := synthetic_columns
                                    (Nat.min (infer_columns_structure
                                                (common_column_count st1))
                                             (width df));
                       rows := map (firstn (infer_columns_structure
                                              (common_column_count st1)))
                                   (raw_rows df) |}
                    st1 with
            | (Ok o, st2) => Some (o, st2)
            | (Raise, st2) => Some (Failed, st2)
            end
        end).
Proof.
  split.
  - intros sn hh f h content st. reflexivity.
  - intros fs f content st st1 Hfs Hledger Hprimary.
    unfold import_file. rewrite Hfs, Hledger, Hprimary, fallback_eq.
    destruct (read_csv E content "," false) as [df|]; reflexivity.
Qed.

(** A file of two columns separated by semicolons, whose header repeats a
    name up to case: the sniffer infers the semicolon, creating the table
    raises, and the fallback stores each line as one field. *)
Lemma fallback_reads_with_comma_witness :
  import_file Example.env (Example.folder [("d/s.csv", Example.semicolons)])
    "d/s.csv" Example.fresh
  = Some (FallbackImported 3,
          {| ledger := [("d/s.csv", Example.semicolons)];
             tables := [("csv_table_s",
                         {| t_columns := ["column_1"; "_hash"];
                            t_rows := [[Some "Qty;qty"; Some "Qty;qty"];
                                       [Some "1;2"; Some "1;2"];
                                       [Some "3;4"; Some "3;4"]] |})];
             common_column_count := [2] |}).
Proof.
  rewrite (proj2 (fallback_reads_with_comma Example.env)
             (Example.folder [("d/s.csv", Example.semicolons)]) "d/s.csv"
             Example.semicolons Example.fresh (add_count 2 Example.fresh)).
  - vm_compute. reflexivity.
  - reflexivity.
  - reflexivity.
  - vm_compute. reflexivity.
Defined.

(* ================================================================== *)
(** * Errors and the batch *)

Lemma import_loop_unreadable E fs f rest st log :
  fs f = None -> import_loop E fs (f :: rest) st log = Aborted st log f.
Proof. intros H. simpl. unfold import_file. now rewrite H. Qed.


(** C5: the program on a folder that holds, besides the file [b.csv], a
    path [a.csv] that cannot be opened (a directory of that name, say).
    [get_file_hash] raises outside of any [try]: the call ends there,
    nothing is recorded for [a.csv], and [b.csv], which imports well on its
    own, is never looked at. *)
Theorem unreadable_file_aborts_batch :
  import_csvs_to_db Example.env
    (Example.folder [("d/b.csv", Example.three_columns)])
    ["d/a.csv"; "d/b.csv"] Example.fresh
  = Aborted Example.fresh [] "d/a.csv"
  /\ import_csvs_to_db Example.env
       (Example.folder [("d/b.csv", Example.three_columns)])
       ["d/b.csv"] Example.fresh
     = Finished
         {| ledger := [("d/b.csv", Example.three_columns)];
            tables := [("csv_table_b",
                        {| t_columns := ["column_1"; "column_2"; "column_3"; "_hash"];
                           t_rows := [[Some "1"; Some "2"; Some "3"; Some "123"];
                                      [Some "4"; Some "5"; Some "6"; Some "456"]] |})];
            common_column_count := [3] |}
         [("d/b.csv", Imported 2)].
Proof.
  split.
  - apply import_loop_unreadable. reflexivity.
  - vm_compute. reflexivity.
Qed.

(* ================================================================== *)
(** * Header names *)

(** Line 86 on its own replaces a name that is empty or made of white
    space by [column_] and the position counted from one. *)
Lemma header_columns_blank :
  header_columns [LStr "Name"; LStr EmptyString; LStr "Age"]
  = ["Name"; "column_2"; "Age"]
  /\ header_columns [LStr "Name"; LStr "  "; LStr "Age"]
     = ["Name"; "column_2"; "Age"].
Proof. split; reflexivity. Qed.

(** C6: the program on a file whose header row is [Name,,Age].  The parser
    has named the empty header cell [Unnamed: 1] before line 86 looks at
    it, so the name is not blank there and is kept: the table gets the
    columns [Name], [Unnamed: 1], [Age], not [Name], [column_2], [Age]. *)
Theorem empty_header_cell_is_not_renamed :
  parse_primary Example.env Example.blank_header
  = Some (true,
          {| raw_columns := [LStr "Name"; LStr "Unnamed: 1"; LStr "Age"];
             raw_rows := [[Text "Alice"; Text "x"; Text "30"];
                          [Text "Bob"; Text "y"; Text "25"]] |})
  /\ header_columns [LStr "Name"; LStr "Unnamed: 1"; LStr "Age"]
     = ["Name"; "Unnamed: 1"; "Age"]
  /\ match import_csvs_to_db Example.env
             (Example.folder [("d/people.csv", Example.blank_header)])
             ["d/people.csv"] Example.fresh with
     | Finished st log =>
         log = [("d/people.csv", Imported 2)]
         /\ option_map t_columns
              (Sqlite.find_table "csv_table_people" (tables st))
            = Some ["Name"; "Unnamed: 1"; "Age"; "_hash"]
     | Aborted _ _ _ => False
     end.
Proof.
  split; [vm_compute; reflexivity|].
  split; [reflexivity|].
  vm_compute. split; reflexivity.
Qed.

(* ================================================================== *)
(** * The ledger *)


Lemma ledger_has_put_other f h g k l :
  g <> f -> Sqlite.ledger_has f h (Sqlite.ledger_put g k l) = Sqlite.ledger_has f h l.
Proof.
  intros Hne. unfold Sqlite.ledger_has, Sqlite.ledger_put.
  rewrite existsb_app. simpl.
  assert (String.eqb g f = false) as -> by now apply String.eqb_neq.
  simpl. rewrite orb_false_r.
  induction l as [|[a b] l IH]; simpl; [reflexivity|].
  destruct (String.eqb a g) eqn:Hag; simpl.
  - apply String.eqb_eq in Hag. subst a.
    assert (String.eqb g f = false) as -> by now apply String.eqb_neq.
    simpl. exact IH.
  - now rewrite IH.
Qed.

(** What one iteration does to the ledger, by what it prints. *)
Lemma import_file_ledger E fs f st o st' :
  import_file E fs f st = Some (o, st') ->
  exists content,
    fs f = Some content
    /\ match o with
       | Skipped =>
           st' = st
           /\ Sqlite.ledger_has f (sha256_hex E content) (ledger st) = true
       | Failed =>
           ledger st' = ledger st
           /\ Sqlite.ledger_has f (sha256_hex E content) (ledger st) = false
       | _ =>
           ledger st' = Sqlite.ledger_put f (sha256_hex E content) (ledger st)
           /\ Sqlite.ledger_has f (sha256_hex E content) (ledger st) = false
       end.
Proof.
  unfold import_file.
  destruct (fs f) as [content|]; [|discriminate].
  intros H. exists content. split; [reflexivity|].
  destruct (Sqlite.ledger_has _ _ _) eqn:Hl.
  { injection H as <- <-. now split. }
  destruct (primary E f _ content st) as [r1 st1] eqn:H1.
  pose proof (primary_ledger _ _ _ _ _ _ _ H1) as L1.
  rewrite primary_eq in H1.
  destruct r1 as [o1|].
  { injection H as <- <-.
    destruct (parse_primary E content) as [[hh df]|]; [|discriminate].
    rewrite persist_eq in H1.
    repeat (cbv zeta in H1;
            match type of H1 with
            | context [match ?x with _ => _ end] => destruct x
            end);
      try discriminate; injection H1 as <- _; now split. }
  destruct (fallback E f _ content st1) as [r2 st2] eqn:H2.
  pose proof (fallback_ledger _ _ _ _ _ _ _ H2) as L2.
  rewrite fallback_eq in H2.
  destruct r2 as [o2|]; injection H as <- <-.
  - destruct (read_csv E content "," false) as [df|]; [|discriminate].
    rewrite persist_eq in H2.
    repeat (cbv zeta in H2;
            match type of H2 with
            | context [match ?x with _ => _ end] => destruct x
            end);
      try discriminate; injection H2 as <- _; split; congruence.
  - split; congruence.
Qed.

(** C7, amended.  When the import of a file ends in failure - an exception
    on the fallback path, in persistence or before - its ledger entry is
    left as it was, and the file is not skipped the next time.  The entry
    is written exactly when one of the two paths completes; an exception in
    the persistence of the primary path alone does not decide this, since
    the file then goes through the fallback. *)
Theorem failed_import_leaves_ledger (E : Env) :
  (forall b f h df st st',
     persist E b f h df st = (Raise, st') -> ledger st' = ledger st)
  /\ (forall fs f st st',
        import_file E fs f st = Some (Failed, st') ->
        ledger st' = ledger st
        /\ exists content,
             fs f = Some content
             /\ Sqlite.ledger_has f (sha256_hex E content) (ledger st') = false)
  /\ (forall fs f st o st',
        import_file E fs f st = Some (o, st') ->
        o <> Failed -> o <> Skipped ->
        exists content,
          fs f = Some content
          /\ ledger st' = Sqlite.ledger_put f (sha256_hex E content) (ledger st)).
Proof.
  repeat split.
  - intros b f h df st st' H. exact (persist_ledger _ _ _ _ _ _ _ _ H).
  - destruct (import_file_ledger _ _ _ _ _ _ H) as (content & _ & Hl & _).
    exact Hl.
  - destruct (import_file_ledger _ _ _ _ _ _ H) as (content & Hfs & Hl & Hh).
    exists content. split; [exact Hfs|]. now rewrite Hl.
  - intros fs f st o st' H Hf Hs.
    destruct (import_file_ledger _ _ _ _ _ _ H) as (content & Hfs & Ho).
    exists content. split; [exact Hfs|].
    destruct o; try tauto; congruence.
Qed.

(** A table of one data column stands for [c.csv]; the file now has a
    header and two columns.  Both paths raise in persistence, and the
    ledger keeps the old hash. *)
Lemma failed_import_leaves_ledger_witness :
  import_file Example.env (Example.folder [("d/c.csv", Example.with_header)])
    "d/c.csv"
    {| ledger := [("d/c.csv", "old")];
       tables := [("csv_table_c",
                   {| t_columns := ["column_1"; "_hash"]; t_rows := [] |})];
       common_column_count := [] |}
  = Some (Failed,
          {| ledger := [("d/c.csv", "old")];
             tables := [("csv_table_c",
                         {| t_columns := ["column_1"; "_hash"]; t_rows := [] |})];
             common_column_count := [2] |})
  /\ Sqlite.ledger_has "d/c.csv" Example.with_header [("d/c.csv", "old")] = false.
Proof.
  assert (import_file Example.env
            (Example.folder [("d/c.csv", Example.with_header)]) "d/c.csv"
            {| ledger := [("d/c.csv", "old")];
               tables := [("csv_table_c",
                           {| t_columns := ["column_1"; "_hash"]; t_rows := [] |})];
               common_column_count := [] |}
          = Some (Failed,
                  {| ledger := [("d/c.csv", "old")];
                     tables := [("csv_table_c",
                                 {| t_columns := ["column_1"; "_hash"];
                                    t_rows := [] |})];
                     common_column_count := [2] |})) as Hrun
      by (vm_compute; reflexivity).
  split; [exact Hrun|].
  destruct (proj1 (proj2 (failed_import_leaves_ledger Example.env)) _ _ _ _ Hrun)
    as (_ & content & Hfs & Hl).
  injection Hfs as <-. exact Hl.
Defined.

(** C7, as stated, fails.  [c.csv] was imported without header (two
    columns); it now starts with the header row [item,qty].  On the primary
    path the insert names the columns [item] and [qty], which the table
    lacks: persisting the rows raises.  The fallback then stores the three
    lines under [column_1], [column_2] and writes the ledger entry with the
    new hash, so the next run skips the file. *)
Lemma persistence_error_then_ledger_written :
  match import_csvs_to_db Example.env
          (Example.folder [("d/c.csv", Example.two_columns)])
          ["d/c.csv"] Example.fresh with
  | Finished st0 _ =>
      Sqlite.to_sql "csv_table_c" ["item"; "qty"; "_hash"]
        [[Some "nut"; Some "3"; Some "nut3"]; [Some "bolt"; Some "12"; Some "bolt12"]]
        (tables st0) = None
      /\ primary Example.env "d/c.csv" Example.with_header Example.with_header st0
         = (Raise, add_count 2 st0)
      /\ ledger st0 = [("d/c.csv", Example.two_columns)]
      /\ match import_file Example.env
                 (Example.folder [("d/c.csv", Example.with_header)]) "d/c.csv" st0 with
         | Some (o, st1) =>
             o = FallbackImported 3
             /\ ledger st1 = [("d/c.csv", Example.with_header)]
             /\ import_file Example.env
                  (Example.folder [("d/c.csv", Example.with_header)]) "d/c.csv" st1
                = Some (Skipped, st1)
         | None => False
         end
  | Aborted _ _ _ => False
  end.
Proof.
  vm_compute. repeat split.
Qed.

(* ================================================================== *)
(** * Row digests and deduplication *)

Lemma filter_map {A B} (p : B -> bool) (g : A -> B) (l : list A) :
  filter p (map g l) = map g (filter (fun a => p (g a)) l).
Proof.
  induction l as [|a l IH]; simpl; [reflexivity|].
  destruct (p (g a)); simpl; now rewrite IH.
Qed.


Lemma dedupe_filter_map E df existing_hashes :
  dedupe E df existing_hashes
  = map (fun row => (row_digest E row, with_hash E (columns df) row))
        (filter (fun row => negb (isin (row_digest E row) existing_hashes))
                (rows df)).
Proof. unfold dedupe. now rewrite filter_map. Qed.



(** The two kinds of missing value are hashed apart and stored alike.  In
    a file of three columns the line [4,5] lacks a field, which is filled
    with [None], and the line [4,5,] has an empty one, which is NaN: the
    digests are taken over [45None] and [45nan], both rows are kept, and
    both hold NULL in the third column. *)
Lemma short_row_is_hashed_with_none :
  match import_csvs_to_db Example.env
          (Example.folder [("d/s.csv", Example.unlines ["1,2,3"; "4,5"; "4,5,"])])
          ["d/s.csv"] Example.fresh with
  | Finished st log =>
      log = [("d/s.csv", Imported 3)]
      /\ option_map t_rows (Sqlite.find_table "csv_table_s" (tables st))
         = Some [[Some "1"; Some "2"; Some "3"; Some "123"];
                 [Some "4"; Some "5"; None; Some "45None"];
                 [Some "4"; Some "5"; None; Some "45nan"]]
  | Aborted _ _ _ => False
  end.
Proof.
  vm_compute. split; reflexivity.
Qed.


(* ================================================================== *)
(** * Importing a folder twice *)

Section TwoRuns.

Variable E : Env.
Variable fs : FileSystem.

Lemma import_file_recorded st f :
  recorded E fs st f -> import_file E fs f st = Some (Skipped, st).
Proof.
  intros (content & Hfs & Hl). unfold import_file. now rewrite Hfs, Hl.
Qed.







End TwoRuns.

Lemma select_hash_find name db hs :
  Sqlite.select_hash name db = Some hs -> exists t, Sqlite.find_table name db = Some t.
Proof.
  unfold Sqlite.select_hash. destruct (Sqlite.find_table name db) as [t|]; [eauto|discriminate].
Qed.

Lemma dedupe_all_present E df hs :
  (forall row, In row (rows df) -> isin (row_digest E row) hs = true) ->
  dedupe E df hs = [].
Proof.
  intros H. rewrite dedupe_filter_map.
  replace (filter _ (rows df)) with (@nil (list value)); [reflexivity|].
  symmetry. induction (rows df) as [|row l IH]; simpl; [reflexivity|].
  rewrite (H row (or_introl eq_refl)). simpl. apply IH.
  intros r Hr. apply H. now right.
Qed.





(* ================================================================== *)
(** * The LIKE operator *)







(* ================================================================== *)
(** * Column names in a query *)

Lemma name_eqb_refl a : Sqlite.name_eqb a a = true.
Proof. unfold Sqlite.name_eqb. apply String.eqb_refl. Qed.

Lemma name_eqb_sym a b : Sqlite.name_eqb a b = Sqlite.name_eqb b a.
Proof. unfold Sqlite.name_eqb. apply String.eqb_sym. Qed.

Lemma has_column_in cols a c :
  In c cols -> Sqlite.name_eqb a c = true -> Sqlite.has_column cols a = true.
Proof.
  unfold Sqlite.has_column.
  induction cols as [|x cols IH]; simpl; intros Hin Heq; [contradiction|].
  destruct (Sqlite.name_eqb a x) eqn:Hax; [reflexivity|].
  destruct Hin as [->|Hin]; [congruence|].
  specialize (IH Hin Heq).
  destruct (Sqlite.column_index a cols); [reflexivity|discriminate].
Qed.

(** In a table, whose column names differ even up to case, a name finds
    its own column. *)
Lemma column_index_nth cols : forall i c,
  Sqlite.has_duplicate cols = false ->
  nth_error cols i = Some c ->
  Sqlite.column_index c cols = Some i.
Proof.
  induction cols as [|a cols IH]; intros i c Hdup Hnth.
  - destruct i; discriminate.
  - simpl in Hdup. apply orb_false_iff in Hdup as [Ha Hdup].
    destruct i as [|i]; simpl in *.
    + injection Hnth as <-. now rewrite name_eqb_refl.
    + destruct (Sqlite.name_eqb c a) eqn:Hca.
      * apply nth_error_In in Hnth.
        rewrite name_eqb_sym in Hca.
        now rewrite (has_column_in _ _ _ Hnth Hca) in Ha.
      * now rewrite (IH i c Hdup Hnth).
Qed.







(** The operands of the query [search_db] builds are its column names. *)
Lemma query_operands cols (pattern : string -> string) terms o :
  In o (flat_map (fun g : list string * string => map Sql.classify (fst g))
                 (map (fun term => (cols, pattern term)) terms)) ->
  exists col, In col cols /\ o = Sql.classify col.
Proof.
  intros H. apply in_flat_map in H as (g & Hg & Ho).
  apply in_map_iff in Hg as (term & <- & _). simpl in Ho.
  apply in_map_iff in Ho as (col & <- & Hcol). now exists col.
Qed.

Lemma existsb_false {A} (p : A -> bool) (l : list A) :
  (forall a, In a l -> p a = false) -> existsb p l = false.
Proof.
  intros H. induction l as [|a l IH]; simpl; [reflexivity|].
  rewrite (H a (or_introl eq_refl)). apply IH. intros b Hb. apply H. now right.
Qed.







(* ================================================================== *)
(** * Column names that are not identifiers *)

Lemma forall_string_impl (p q : ascii -> bool) s :
  (forall c, p c = true -> q c = true) ->
  Py.forall_string p s = true -> Py.forall_string q s = true.
Proof.
  intros H. induction s as [|c s IH]; simpl; [reflexivity|].
  intros Hs. apply andb_true_iff in Hs as [Hc Hs]. now rewrite (H c Hc), IH.
Qed.

(** A text without the separator is one piece. *)
Lemma split_on_one_piece sep s : forall cur,
  Py.forall_string (fun c => negb (Ascii.eqb c sep)) s = true ->
  length (Py.split_on_go sep cur s) = 1.
Proof.
  induction s as [|c s IH]; intros cur; simpl; [reflexivity|].
  intros H. apply andb_true_iff in H as [Hc Hs].
  apply negb_true_iff in Hc. rewrite Hc. now apply IH.
Qed.

Lemma ident_char_no_space c :
  Sql.ident_char c = true -> negb (Ascii.eqb c Sql.space) = true.
Proof. destruct c as [[] [] [] [] [] [] [] []]; vm_compute; congruence. Qed.

Lemma digit_no_space c :
  Py.is_ascii_digit c = true -> negb (Ascii.eqb c Sql.space) = true.
Proof. destruct c as [[] [] [] [] [] [] [] []]; vm_compute; congruence. Qed.

Lemma length_filter_le {A} (p : A -> bool) (l : list A) :
  length (filter p l) <= length l.
Proof.
  induction l as [|a l IH]; simpl; [lia|]. destruct (p a); simpl; lia.
Qed.

(** Two words or more are neither an identifier nor a number: pasted
    bare, they are a syntax error. *)
Lemma words_are_a_syntax_error col :
  Sql.is_identifier_sequence col = true -> Sql.classify col = Sql.OSyntaxError.
Proof.
  intros Hseq. unfold Sql.classify. rewrite Hseq.
  unfold Sql.is_identifier_sequence, Sql.words in Hseq.
  apply andb_true_iff in Hseq as [Hlen _]. apply Nat.leb_le in Hlen.
  assert (Py.forall_string (fun c => negb (Ascii.eqb c Sql.space)) col = true -> False)
    as Hspace.
  { intros H.
    pose proof (length_filter_le Py.truthy (Py.split_on Sql.space col)) as Hle.
    unfold Py.split_on in *. rewrite (split_on_one_piece _ _ [] H) in Hle. lia. }
  destruct (Sql.is_identifier col) eqn:Hid.
  { exfalso. apply Hspace. destruct col as [|c r]; [reflexivity|].
    unfold Sql.is_identifier in Hid.
    apply andb_true_iff in Hid as [Hid _]. apply andb_true_iff in Hid as [Hc Hr].
    simpl. rewrite (ident_char_no_space c).
    - exact (forall_string_impl _ _ _ ident_char_no_space Hr).
    - unfold Sql.ident_char. now rewrite Hc. }
  destruct (Sql.is_integer_literal col) eqn:Hint; [|reflexivity].
  exfalso. apply Hspace. destruct col as [|c r]; [reflexivity|].
  unfold Sql.is_integer_literal in Hint.
  apply andb_true_iff in Hint as [Hint _]. apply andb_true_iff in Hint as [Hd _].
  exact (forall_string_impl _ _ _ digit_no_space Hd).
Qed.

(** C10, amended.  The query pastes the column names bare.  When a column
    other than [_hash] is named by two or more words separated by spaces,
    each an identifier that is no keyword of SQLite, the query is a syntax
    error: the search of that table fails, whatever the keyword, and
    returns no row of it.  This holds as long as the other names of the
    table are texts whose meaning in a query is modelled: an identifier
    that is no keyword, an integer, or such words.  Nothing is said of a
    name that holds a keyword: some of these are expressions. *)
Theorem search_fails_on_column_name_of_words (keyword : string) (t : Table)
    (col : string) :
  In col (searched_columns t) ->
  Sql.is_identifier_sequence col = true ->
  (forall c, In c (searched_columns t) ->
             Sql.is_identifier c = true \/ Sql.is_integer_literal c = true
             \/ Sql.is_identifier_sequence c = true) ->
  search_table keyword t = SearchFailed.
Proof.
  intros Hcol Hseq Hothers.
  pose proof (words_are_a_syntax_error _ Hseq) as Hsyntax.
  assert (forall c, In c (searched_columns t) -> Sql.classify c <> Sql.OUnmodelled)
    as Hmodelled.
  { intros c Hc. unfold Sql.classify.
    destruct (Hothers c Hc) as [H|[H|H]].
    - rewrite H. discriminate.
    - rewrite H. destruct (Sql.is_identifier c); discriminate.
    - rewrite H. destruct (Sql.is_identifier c); [discriminate|].
      destruct (Sql.is_integer_literal c); discriminate. }
  unfold search_table.
  destruct (t_columns t) as [|c0 cols0] eqn:Hc.
  { unfold searched_columns in Hcol. rewrite Hc in Hcol. destruct Hcol. }
  rewrite <- Hc.
  change (filter (fun col => negb (String.eqb col "_hash")) (t_columns t))
    with (searched_columns t).
  unfold Sql.select_where.
  rewrite existsb_false.
  2:{ intros o Ho. apply query_operands in Ho as (c & Hin & ->).
      specialize (Hmodelled c Hin). now destruct (Sql.classify c). }
  destruct (Py.split keyword) as [|term terms]; [reflexivity|].
  cbn [map].
  destruct (existsb (fun g : list string * string =>
                       match fst g with [] => true | _ :: _ => false end) _);
    [reflexivity|].
  replace (existsb (Sql.is_error (t_columns t)) _) with true; [reflexivity|].
  symmetry. apply existsb_exists. exists Sql.OSyntaxError. split; [|reflexivity].
  cbn [flat_map fst]. apply in_or_app. left.
  apply in_map_iff. now exists col.
Qed.

(** The table of a file whose header is [unit price,qty]. *)
Lemma search_fails_on_column_name_of_words_witness :
  search_table "5"
    {| t_columns := ["unit price"; "qty"; "_hash"];
       t_rows := [[Some "5"; Some "1"; Some "51"]; [Some "7"; Some "2"; Some "72"]] |}
  = SearchFailed.
Proof.
  apply (search_fails_on_column_name_of_words "5"
           {| t_columns := ["unit price"; "qty"; "_hash"];
              t_rows := [[Some "5"; Some "1"; Some "51"];
                         [Some "7"; Some "2"; Some "72"]] |}
           "unit price").
  - vm_compute. now left.
  - vm_compute. reflexivity.
  - intros c Hc. vm_compute in Hc.
    destruct Hc as [<-|[<-|[]]]; vm_compute; auto.
Defined.

(** C10, as stated, fails: a column name that is no identifier can still
    be a valid expression.  The file with the header [country,pop,area,2020]
    gets a column named [2020]; pasted bare, the name is the number 2020.
    The search raises no error and returns rows: the row of [fr] for the
    keyword [fr], and every row for the keyword [02], which the number
    itself matches. *)
Lemma search_succeeds_on_numeric_column_name :
  Sql.is_identifier "2020" = false
  /\ match import_csvs_to_db Example.env
             (Example.folder [("d/w.csv", Example.years)])
             ["d/w.csv"] Example.fresh with
     | Finished st _ =>
         option_map t_columns (Sqlite.find_table "csv_table_w" (tables st))
         = Some ["country"; "pop"; "area"; "2020"; "_hash"]
         /\ search_db "fr" st
            = [("csv_table_w",
                Matches ["country"; "pop"; "area"; "2020"] [["fr"; "1"; "2"; "3"]])]
         /\ search_db "02" st
            = [("csv_table_w",
                Matches ["country"; "pop"; "area"; "2020"]
                  [["fr"; "1"; "2"; "3"]; ["de"; "4"; "5"; "6"]])]
     | Aborted _ _ _ => False
     end.
Proof.
  split; [reflexivity|]. vm_compute. repeat split.
Qed.

(* ================================================================== *)
(** * More on table names *)

Lemma forall_string_map p f s :
  Py.forall_string p (Py.map_string f s) = Py.forall_string (fun c => p (f c)) s.
Proof. induction s as [|c s IH]; simpl; congruence. Qed.

Lemma forall_string_all p s : (forall c, p c = true) -> Py.forall_string p s = true.
Proof. intros H. induction s as [|c s IH]; simpl; [reflexivity|]. now rewrite H, IH. Qed.

Lemma prefix_append p s : String.prefix p (p ++ s) = true.
Proof.
  induction p as [|a p IH]; simpl; [now destruct s|].
  destruct (ascii_dec a a); [exact IH|congruence].
Qed.

(** A word character in lower case, and the underscore, are outside ASCII
    or among the small letters, the digits and the underscore. *)
Lemma lower_of_replaced_char c :
  (fun d => (128 <=? Py.code d)%nat || Py.is_ascii_lower d || Py.is_ascii_digit d
            || (Py.code d =? 95)%nat)
    (Py.lower_char (if Py.is_word c then c else "_"%char)) = true.
Proof. destruct c as [[] [] [] [] [] [] [] []]; reflexivity. Qed.

(** X1.  A table name starts with [csv_table_] - so that [search_db], which
    keeps the tables of that prefix, sees every table an import makes - and
    every ASCII character in it is a small letter, a digit or the
    underscore: no quote, no space, no dot, no slash, no capital. *)
Theorem table_name_is_safe (p : string) :
  Py.startswith TABLE_PREFIX (generate_table_name p) = true
  /\ Py.forall_string
       (fun c => (128 <=? Py.code c)%nat || Py.is_ascii_lower c || Py.is_ascii_digit c
                 || (Py.code c =? 95)%nat)
       (generate_table_name p) = true
  /\ Py.exists_string (fun c => (Py.code c =? 39)%nat || (Py.code c =? 34)%nat)
       (generate_table_name p) = false.
Proof.
  assert (forall s,
            Py.forall_string
              (fun c => (128 <=? Py.code c)%nat || Py.is_ascii_lower c
                        || Py.is_ascii_digit c || (Py.code c =? 95)%nat)
              (Py.lower (Py.sub_non_word s)) = true) as Hbody.
  { intros s. unfold Py.lower, Py.sub_non_word.
    rewrite map_string_compose, forall_string_map.
    apply forall_string_all. intros c. apply lower_of_replaced_char. }
  unfold generate_table_name.
  split; [apply prefix_append|]. split.
  - unfold TABLE_PREFIX. cbn [append Py.forall_string].
    rewrite Hbody. reflexivity.
  - unfold TABLE_PREFIX. cbn [append Py.exists_string].
    generalize (Hbody (Py.splitext_root (Py.basename p))).
    generalize (Py.lower (Py.sub_non_word (Py.splitext_root (Py.basename p)))).
    intros s Hs. simpl.
    induction s as [|c s IH]; simpl in *; [reflexivity|].
    apply andb_true_iff in Hs as [Hc Hs]. rewrite (IH Hs), orb_false_r.
    clear - Hc. destruct c as [[] [] [] [] [] [] [] []]; vm_compute in *;
      try reflexivity; discriminate.
Qed.

(** Replacing and lower-casing do not see the case of an ASCII letter. *)
Lemma lower_of_replaced_fold c :
  Py.lower_char (if Py.is_word c then c else "_"%char)
  = Py.lower_char (if Py.is_word (Sqlite.fold_char c) then Sqlite.fold_char c
                   else "_"%char).
Proof. destruct c as [[] [] [] [] [] [] [] []]; reflexivity. Qed.

Lemma lower_sub_fold s :
  Py.lower (Py.sub_non_word s)
  = Py.lower (Py.sub_non_word (Py.map_string Sqlite.fold_char s)).
Proof.
  unfold Py.lower, Py.sub_non_word. rewrite !map_string_compose.
  apply map_string_ext. intros c. apply lower_of_replaced_fold.
Qed.

(** X2.  Two files whose stems differ only in the case of ASCII letters get
    the same table. *)
Theorem table_name_ignores_case (p1 p2 : string) :
  same_up_to_ascii_case (Py.splitext_root (Py.basename p1))
                        (Py.splitext_root (Py.basename p2)) ->
  generate_table_name p1 = generate_table_name p2.
Proof.
  intros H. unfold generate_table_name.
  rewrite (lower_sub_fold (Py.splitext_root (Py.basename p1))),
          (lower_sub_fold (Py.splitext_root (Py.basename p2))).
  now rewrite H.
Qed.

Lemma table_name_ignores_case_witness :
  generate_table_name "d/Sales Q1.csv" = generate_table_name "d/SALES q1.csv".
Proof. apply table_name_ignores_case. reflexivity. Defined.

(* ================================================================== *)
(** * Paths *)

Lemma substring_skip a : forall k n s,
  substring (String.length a + k) n (a ++ s) = substring k n s.
Proof. induction a as [|c a IH]; intros k n s; simpl; [reflexivity|apply IH]. Qed.

Lemma substring_whole s : substring 0 (String.length s) s = s.
Proof. induction s as [|c s IH]; simpl; congruence. Qed.

Lemma substring_front a : forall s, substring 0 (String.length a) (a ++ s) = a.
Proof.
  induction a as [|c a IH]; intros s; simpl; [now destruct s|]. now rewrite IH.
Qed.

Lemma rfind_go_absent c s : forall i last,
  Py.exists_string (fun d => Ascii.eqb d c) s = false ->
  Py.rfind_go c s i last = last.
Proof.
  induction s as [|d s IH]; simpl; intros i last H; [reflexivity|].
  apply orb_false_iff in H as [Hd Hs]. rewrite Hd. now apply IH.
Qed.

(** The last occurrence of a character, when the rest is free of it. *)
Lemma rfind_go_last c b a : forall i last,
  Py.exists_string (fun d => Ascii.eqb d c) b = false ->
  Py.rfind_go c (a ++ String c b) i last = (i + Z.of_nat (String.length a))%Z.
Proof.
  induction a as [|d a IH]; simpl; intros i last H.
  - rewrite Ascii.eqb_refl, (rfind_go_absent _ _ _ _ H). lia.
  - rewrite (IH _ _ H). lia.
Qed.

Lemma basename_no_slash name :
  Py.exists_string (fun d => Ascii.eqb d "/") name = false ->
  Py.basename name = name.
Proof.
  intros H. unfold Py.basename, Py.rfind, Py.drop.
  rewrite (rfind_go_absent _ _ _ _ H). simpl.
  rewrite Nat.sub_0_r. apply substring_whole.
Qed.

Lemma basename_after_slash dir name :
  Py.exists_string (fun d => Ascii.eqb d "/") name = false ->
  Py.basename (dir ++ String "/" name) = name.
Proof.
  intros H. unfold Py.basename, Py.rfind, Py.drop.
  rewrite (rfind_go_last _ _ _ _ _ H).
  replace (Z.to_nat (0 + Z.of_nat (String.length dir) + 1))
    with (String.length dir + 1) by lia.
  rewrite string_length_append. simpl.
  replace (String.length dir + S (String.length name) - (String.length dir + 1))
    with (String.length name) by lia.
  rewrite substring_skip. simpl. apply substring_whole.
Qed.

Lemma table_name_under_folder dir name :
  Py.exists_string (fun d => Ascii.eqb d "/") name = false ->
  generate_table_name (dir ++ "/" ++ name) = generate_table_name name.
Proof.
  intros H. unfold generate_table_name.
  change (dir ++ "/" ++ name) with (dir ++ String "/" name).
  now rewrite (basename_after_slash _ _ H), (basename_no_slash _ H).
Qed.

(** X3.  The table name does not depend on the folder: a file gets the
    table of its base name, wherever it lies. *)
Theorem table_name_ignores_directory (dir name : string) :
  Py.exists_string (fun d => Ascii.eqb d "/") name = false ->
  generate_table_name (dir ++ "/" ++ name) = generate_table_name name.
Proof. apply table_name_under_folder. Qed.

Lemma table_name_ignores_directory_witness :
  generate_table_name ("data/2024" ++ "/" ++ "sales.csv")
  = generate_table_name "sales.csv".
Proof. apply table_name_ignores_directory. reflexivity. Defined.

Lemma exists_string_append p a b :
  Py.exists_string p (a ++ b) = Py.exists_string p a || Py.exists_string p b.
Proof. induction a as [|c a IH]; simpl; [reflexivity|]. now rewrite IH, orb_assoc. Qed.

(** The root of [stem.csv], for a stem that does not start with a dot. *)
Lemma splitext_root_csv c r :
  Py.exists_string (fun d => Ascii.eqb d "/") (String c r) = false ->
  Ascii.eqb c "." = false ->
  Py.splitext_root (String c r ++ ".csv") = String c r.
Proof.
  intros Hslash Hdot. unfold Py.splitext_root, Py.rfind.
  assert (Py.exists_string (fun d => Ascii.eqb d "/") (String c r ++ ".csv") = false)
    as Hs by (rewrite exists_string_append, Hslash; reflexivity).
  rewrite (rfind_go_absent _ _ _ _ Hs).
  change (String c r ++ ".csv") with (String c r ++ String "." "csv").
  rewrite (rfind_go_last "." "csv" (String c r) 0 (-1) eq_refl).
  replace (-1 <? 0 + Z.of_nat (String.length (String c r)))%Z with true
    by (symmetry; apply Z.ltb_lt; lia).
  replace (Z.to_nat (0 + Z.of_nat (String.length (String c r)) - (-1 + 1)))
    with (S (String.length r)) by (simpl String.length; lia).
  replace (Z.to_nat (-1 + 1)) with 0 by lia.
  cbn [Py.has_non_dot]. cbn [append String.get]. rewrite Hdot.
  unfold Py.take.
  replace (Z.to_nat (0 + Z.of_nat (String.length (String c r))))
    with (String.length (String c r)) by lia.
  exact (substring_front (String c r) ".csv").
Qed.

(** X4.  For a file [stem.csv] in a folder, as [glob] lists them (the stem
    without slash, not starting with a dot), the table name is the prefix
    followed by the stem, with underscores for the characters that are not
    word characters, in lower case: the extension is gone, and only it. *)
Theorem table_name_of_csv_file (dir : string) (c : ascii) (r : string) :
  Py.exists_string (fun d => Ascii.eqb d "/") (String c r) = false ->
  Ascii.eqb c "." = false ->
  generate_table_name (dir ++ "/" ++ String c r ++ ".csv")
  = TABLE_PREFIX ++ Py.lower (Py.sub_non_word (String c r)).
Proof.
  intros Hslash Hdot.
  assert (Py.exists_string (fun d => Ascii.eqb d "/") (String c r ++ ".csv") = false)
    as Hs by (rewrite exists_string_append, Hslash; reflexivity).
  rewrite (table_name_under_folder dir _ Hs).
  unfold generate_table_name.
  now rewrite (basename_no_slash _ Hs), (splitext_root_csv _ _ Hslash Hdot).
Qed.

Lemma table_name_of_csv_file_witness :
  generate_table_name ("data" ++ "/" ++ "My.Report v2" ++ ".csv")
  = "csv_table_my_report_v2".
Proof.
  rewrite (table_name_of_csv_file "data" "M" "y.Report v2" eq_refl eq_refl).
  reflexivity.
Defined.

(* ================================================================== *)
(** * Column names *)




Lemma forall_string_append p a b :
  Py.forall_string p (a ++ b) = Py.forall_string p a && Py.forall_string p b.
Proof. induction a as [|c a IH]; simpl; [reflexivity|]. now rewrite IH, andb_assoc. Qed.








Lemma rstrip_keeps_head c r :
  Py.isspace c = false -> exists r', Py.rstrip (String c r) = String c r'.
Proof.
  intros Hc. simpl. destruct (Py.rstrip r); [rewrite Hc|]; eauto.
Qed.

Lemma header_columns_from_spec cols : forall i,
  length (header_columns_from i cols) = length cols
  /\ forall name, In name (header_columns_from i cols) ->
                  Py.truthy (Py.strip name) = true.
Proof.
  induction cols as [|col cols IH]; intros i; simpl.
  - split; [reflexivity|intros name []].
  - destruct (IH (S i)) as [Hlen Hall]. split; [now rewrite Hlen|].
    intros name [<-|Hin]; [|now apply Hall].
    destruct (Py.truthy (Py.strip (str_of_label col))) eqn:Ht; [exact Ht|].
    unfold Py.strip. cbn [append Py.lstrip].
    change (Py.isspace "c") with false. cbn iota.
    destruct (rstrip_keeps_head "c" ("olumn_" ++ Py.str_of_nat (i + 1)) eq_refl)
      as [r' Hr].
    cbn [append] in Hr. now rewrite Hr.
Qed.

(** X6.  After line 86 a frame read with a header has as many column
    names as before, and none of them is empty or made of white space. *)
Theorem header_columns_never_blank (cols : list label) :
  length (header_columns cols) = length cols
  /\ forall name, In name (header_columns cols) -> Py.truthy (Py.strip name) = true.
Proof. apply header_columns_from_spec. Qed.

Lemma header_columns_never_blank_witness :
  Py.truthy (Py.strip "column_2") = true.
Proof.
  apply (proj2 (header_columns_never_blank [LStr "Name"; LStr "  "; LStr "Age"])).
  vm_compute. right. left. reflexivity.
Defined.

(* ================================================================== *)
(** * Statements on the tables *)

Lemma find_table_app name db db' :
  Sqlite.find_table name (db ++ db')%list
  = match Sqlite.find_table name db with
    | Some t => Some t
    | None => Sqlite.find_table name db'
    end.
Proof.
  induction db as [|[n t] db IH]; simpl; [reflexivity|].
  destruct (String.eqb n name); [reflexivity|exact IH].
Qed.

Lemma find_table_new name t db :
  Sqlite.find_table name db = None ->
  Sqlite.find_table name (db ++ [(name, t)])%list = Some t.
Proof.
  intros H. rewrite find_table_app, H. simpl. now rewrite String.eqb_refl.
Qed.

Lemma find_table_update name t' db n :
  Sqlite.find_table n (Sqlite.update_table name t' db)
  = if String.eqb n name
    then match Sqlite.find_table name db with
         | Some _ => Some t'
         | None => None
         end
    else Sqlite.find_table n db.
Proof.
  induction db as [|[m t] db IH]; simpl.
  - now destruct (String.eqb n name).
  - destruct (String.eqb_spec m name) as [Hm|Hm]; simpl.
    + subst m. rewrite (String.eqb_sym n name). now destruct (String.eqb name n).
    + destruct (String.eqb_spec m n) as [Hmn|Hmn]; [|exact IH].
      destruct (String.eqb_spec n name) as [Hn|_]; [congruence|reflexivity].
Qed.

Lemma has_column_self cols c : In c cols -> Sqlite.has_column cols c = true.
Proof. intros H. exact (has_column_in _ _ _ H (name_eqb_refl c)). Qed.

Lemma has_all_own_columns cols : forallb (Sqlite.has_column cols) cols = true.
Proof. apply forallb_forall. intros c. apply has_column_self. Qed.

Lemma columns_with_hash_has_hash cols :
  Sqlite.has_column (columns_with_hash cols) "_hash" = true.
Proof.
  apply has_column_self. unfold columns_with_hash, has_hash_label.
  destruct (existsb (String.eqb "_hash") cols) eqn:H.
  - apply existsb_exists in H as (x & Hx & He).
    apply String.eqb_eq in He. now subst x.
  - apply in_or_app. right. now left.
Qed.

Lemma filter_all {A} (p : A -> bool) (l : list A) :
  (forall a, p a = true) -> filter p l = l.
Proof.
  intros H. induction l as [|a l IH]; simpl; [reflexivity|]. now rewrite H, IH.
Qed.

Lemma dedupe_nothing_stored E df :
  dedupe E df []
  = map (fun row => (row_digest E row, with_hash E (columns df) row)) (rows df).
Proof.
  rewrite dedupe_filter_map. f_equal.
  apply filter_all. intros row. reflexivity.
Qed.

Lemma update_table_new name t t' db :
  Sqlite.find_table name db = None ->
  Sqlite.update_table name t' (db ++ [(name, t)])%list = (db ++ [(name, t')])%list.
Proof.
  induction db as [|[n x] db IH]; simpl; intros H.
  - now rewrite String.eqb_refl.
  - destruct (String.eqb n name); [discriminate|]. now rewrite IH.
Qed.

(** [persist] into a database that lacks the table. *)
Lemma persist_absent_eq E b f h df st :
  Sqlite.find_table (generate_table_name f) (tables st) = None ->
  persist E b f h df st =
  if existsb Sqlite.has_dquote (columns_with_hash (columns df))
     || Sqlite.has_duplicate (columns_with_hash (columns df))
  then (Raise, st)
  else
    (Ok (match rows df with
         | [] => if b then FallbackNoNewData else NoNewData
         | _ :: _ => if b then FallbackImported (length (rows df))
                     else Imported (length (rows df))
         end),
     set_ledger (Sqlite.ledger_put f h (ledger st))
       (set_tables
          (tables st
           ++ [(generate_table_name f,
                {| t_columns := columns_with_hash (columns df);
                   t_rows := map (Sqlite.align (columns_with_hash (columns df))
                                    (columns_with_hash (columns df)))
                                 (map (map sql_value)
                                    (map (with_hash E (columns df)) (rows df))) |})])%list
          st)).
Proof.
  intros Habsent. rewrite persist_eq.
  unfold Sqlite.create_table_if_not_exists. rewrite Habsent.
  destruct (existsb Sqlite.has_dquote _); [reflexivity|].
  destruct (Sqlite.has_duplicate _); [reflexivity|]. cbn [orb].
  unfold Sqlite.select_hash. rewrite (find_table_new _ _ _ Habsent).
  cbn [t_columns t_rows].
  pose proof (columns_with_hash_has_hash (columns df)) as Hh.
  unfold Sqlite.has_column in Hh.
  destruct (Sqlite.column_index "_hash" _) as [i|]; [|discriminate].
  cbn [map]. rewrite dedupe_nothing_stored.
  destruct (rows df) as [|row l] eqn:Hrows; [reflexivity|].
  cbn [map snd]. unfold Sqlite.to_sql. rewrite (find_table_new _ _ _ Habsent).
  cbn [t_columns t_rows]. rewrite has_all_own_columns.
  rewrite (update_table_new _ _ _ _ Habsent).
  cbn [app length map]. rewrite !length_map, !map_map. cbn [snd]. reflexivity.
Qed.


Lemma length_align fc tc row : length (Sqlite.align fc tc row) = length tc.
Proof. unfold Sqlite.align. apply length_map. Qed.



Lemma create_existing name cols db t :
  Sqlite.find_table name db = Some t ->
  Sqlite.create_table_if_not_exists name cols db
  = if existsb Sqlite.has_dquote cols then None else Some db.
Proof. intros H. unfold Sqlite.create_table_if_not_exists. now rewrite H. Qed.

(** What [persist] does to the state when it raises, and to the tables
    when it returns. *)
Lemma persist_tables E b f h df st r st' :
  persist E b f h df st = (r, st') ->
  match r with
  | Ok o => table_step (generate_table_name f) (rows_inserted o) (tables st) (tables st')
  | Raise => st' = st
  end.
Proof.
  destruct (Sqlite.find_table (generate_table_name f) (tables st)) as [t|] eqn:Hfind.
  - rewrite persist_eq, (create_existing _ _ _ _ Hfind).
    destruct (existsb Sqlite.has_dquote _); [now intros [= <- <-]|].
    destruct (Sqlite.select_hash _ _) as [hs|];
      [|intros [= <- <-]; now destruct st].
    destruct (dedupe E df hs) as [|r0 new_rows] eqn:Hd.
    { intros [= <- <-]. left. split; [reflexivity|now destruct b]. }
    unfold Sqlite.to_sql. rewrite Hfind.
    destruct (forallb _ _); [|intros [= <- <-]; now destruct st].
    intros [= <- <-]. right. left.
    exists t,
      (map (Sqlite.align (columns_with_hash (columns df)) (t_columns t))
           (map (map sql_value) (map snd (r0 :: new_rows)))).
    split; [exact Hfind|]. split; [reflexivity|]. split.
    + rewrite !length_map. now destruct b.
    + apply Forall_forall. intros row Hrow.
      apply in_map_iff in Hrow as (x & <- & _). apply length_align.
  - rewrite (persist_absent_eq _ _ _ _ _ _ Hfind).
    destruct (existsb Sqlite.has_dquote _); [now intros [= <- <-]|].
    destruct (Sqlite.has_duplicate _) eqn:Hdup; [now intros [= <- <-]|].
    intros [= <- <-]. right. right.
    eexists _, _. split; [exact Hfind|]. split; [reflexivity|]. split.
    + rewrite !length_map. now destruct (rows df), b.
    + split; [exact Hdup|]. split; [apply columns_with_hash_has_hash|].
      apply Forall_forall. intros row Hrow.
      apply in_map_iff in Hrow as (x & <- & _). apply length_align.
Qed.

Lemma primary_tables E f h content st r st' :
  primary E f h content st = (r, st') ->
  match r with
  | Ok o => table_step (generate_table_name f) (rows_inserted o) (tables st) (tables st')
  | Raise => tables st' = tables st /\ ledger st' = ledger st
  end.
Proof.
  rewrite primary_eq.
  destruct (parse_primary E content) as [[hh df]|]; [|now intros [= <- <-]].
  intros H. apply persist_tables in H. destruct r; [exact H|now subst st'].
Qed.

Lemma fallback_tables E f h content st r st' :
  fallback E f h content st = (r, st') ->
  match r with
  | Ok o => table_step (generate_table_name f) (rows_inserted o) (tables st) (tables st')
  | Raise => st' = st
  end.
Proof.
  rewrite fallback_eq.
  destruct (read_csv E content "," false) as [df|]; [|now intros [= <- <-]].
  apply persist_tables.
Qed.

(** One iteration of the loop is one step on the table of the file. *)
Lemma import_file_tables E fs f st o st' :
  import_file E fs f st = Some (o, st') ->
  table_step (generate_table_name f) (rows_inserted o) (tables st) (tables st').
Proof.
  unfold import_file.
  destruct (fs f) as [content|]; [|discriminate].
  destruct (Sqlite.ledger_has _ _ _); [intros [= <- <-]; left; now split|].
  destruct (primary E f _ content st) as [[o1|] st1] eqn:H1;
    apply primary_tables in H1.
  { now intros [= <- <-]. }
  destruct H1 as [H1 _].
  destruct (fallback E f _ content st1) as [[o2|] st2] eqn:H2;
    apply fallback_tables in H2; intros [= <- <-].
  - now rewrite <- H1.
  - subst st2. left. now split.
Qed.

(* ================================================================== *)
(** * Steps on the tables *)

Lemma grows_refl db : grows db db.
Proof.
  intros name t H. exists t. split; [exact H|]. split; [reflexivity|].
  exists []. now rewrite app_nil_r.
Qed.

Lemma grows_trans db1 db2 db3 : grows db1 db2 -> grows db2 db3 -> grows db1 db3.
Proof.
  intros H12 H23 name t H.
  destruct (H12 name t H) as (t2 & H2 & Hc2 & more2 & Hr2).
  destruct (H23 name t2 H2) as (t3 & H3 & Hc3 & more3 & Hr3).
  exists t3. split; [exact H3|]. split; [congruence|].
  exists (more2 ++ more3)%list. now rewrite Hr3, Hr2, app_assoc.
Qed.

Lemma table_step_grows name n db db' : table_step name n db db' -> grows db db'.
Proof.
  intros [[-> _]|[(t & more & Hfind & -> & _)|(cols & more & Hfind & -> & _)]].
  - apply grows_refl.
  - intros m x Hx. rewrite find_table_update.
    destruct (String.eqb_spec m name) as [->|_].
    + rewrite Hfind in *. injection Hx as <-.
      eexists. split; [reflexivity|]. split; [reflexivity|]. now exists more.
    + exists x. split; [exact Hx|]. split; [reflexivity|].
      exists []. now rewrite app_nil_r.
  - intros m x Hx. rewrite find_table_app, Hx.
    exists x. split; [reflexivity|]. split; [reflexivity|].
    exists []. now rewrite app_nil_r.
Qed.

Lemma table_step_other name n db db' m :
  table_step name n db db' -> m <> name ->
  Sqlite.find_table m db' = Sqlite.find_table m db.
Proof.
  intros [[-> _]|[(t & more & Hfind & -> & _)|(cols & more & Hfind & -> & _)]] Hne.
  - reflexivity.
  - rewrite find_table_update.
    destruct (String.eqb_spec m name); [contradiction|reflexivity].
  - rewrite find_table_app. simpl.
    destruct (String.eqb_spec name m); [congruence|].
    now destruct (Sqlite.find_table m db).
Qed.

Lemma table_step_row_count name n db db' :
  table_step name n db db' -> row_count name db' = row_count name db + n.
Proof.
  unfold row_count.
  intros [[-> ->]|[(t & more & Hfind & -> & <- & _)|(cols & more & Hfind & -> & <- & _)]].
  - lia.
  - rewrite find_table_update, String.eqb_refl, Hfind. simpl. apply length_app.
  - now rewrite (find_table_new _ _ _ Hfind), Hfind.
Qed.

Lemma total_rows_app db db' : total_rows (db ++ db')%list = total_rows db + total_rows db'.
Proof.
  unfold total_rows. induction db as [|x db IH]; simpl; [reflexivity|].
  rewrite IH. lia.
Qed.

Lemma total_rows_update name t more db :
  Sqlite.find_table name db = Some t ->
  total_rows (Sqlite.update_table name
                {| t_columns := t_columns t; t_rows := (t_rows t ++ more)%list |} db)
  = total_rows db + length more.
Proof.
  induction db as [|[m x] db IH]; simpl; [discriminate|].
  destruct (String.eqb m name).
  - intros [= ->]. unfold total_rows. simpl. rewrite length_app. lia.
  - intros H. unfold total_rows in *. simpl. rewrite (IH H). lia.
Qed.

Lemma table_step_total name n db db' :
  table_step name n db db' -> total_rows db' = total_rows db + n.
Proof.
  intros [[-> ->]|[(t & more & Hfind & -> & <- & _)|(cols & more & Hfind & -> & <- & _)]].
  - lia.
  - now apply total_rows_update.
  - rewrite total_rows_app. unfold total_rows at 2. simpl. lia.
Qed.

Lemma db_ok_update name t' db :
  db_ok db -> table_ok t' -> db_ok (Sqlite.update_table name t' db).
Proof.
  unfold db_ok. intros Hdb Ht.
  induction db as [|[m x] db IH]; simpl; [constructor|].
  inversion Hdb as [|? ? Hx Hrest]; subst.
  destruct (String.eqb m name); constructor; auto.
Qed.

Lemma db_ok_find name db t : db_ok db -> Sqlite.find_table name db = Some t -> table_ok t.
Proof.
  unfold db_ok. induction db as [|[m x] db IH]; simpl; [discriminate|].
  intros Hdb. inversion Hdb as [|? ? Hx Hrest]; subst.
  destruct (String.eqb m name); [now intros [= <-]|now apply IH].
Qed.

Lemma table_step_ok name n db db' : table_step name n db db' -> db_ok db -> db_ok db'.
Proof.
  intros [[-> _]|[(t & more & Hfind & -> & _ & Hlen)|(cols & more & Hfind & -> & _ & Hok)]]
         Hdb.
  - exact Hdb.
  - apply db_ok_update; [exact Hdb|].
    destruct (db_ok_find _ _ _ Hdb Hfind) as (Hdup & Hhash & Hrows).
    split; [exact Hdup|]. split; [exact Hhash|]. simpl.
    apply Forall_app. now split.
  - apply Forall_app. split; [exact Hdb|]. constructor; [exact Hok|constructor].
Qed.

Lemma map_fst_update name t' db :
  map fst (Sqlite.update_table name t' db) = map fst db.
Proof.
  induction db as [|[m x] db IH]; simpl; [reflexivity|].
  destruct (String.eqb m name); simpl; [reflexivity|now rewrite IH].
Qed.

Lemma table_step_names name n db db' :
  table_step name n db db' ->
  map fst db' = map fst db
  \/ (Sqlite.find_table name db = None /\ map fst db' = (map fst db ++ [name])%list).
Proof.
  intros [[-> _]|[(t & more & Hfind & -> & _)|(cols & more & Hfind & -> & _)]].
  - now left.
  - left. apply map_fst_update.
  - right. split; [exact Hfind|]. now rewrite map_app.
Qed.

Lemma table_name_prefix p : Py.startswith TABLE_PREFIX (generate_table_name p) = true.
Proof. unfold generate_table_name. apply prefix_append. Qed.

Lemma all_prefixed_names db :
  all_prefixed db <-> Forall (fun n => Py.startswith TABLE_PREFIX n = true) (map fst db).
Proof. unfold all_prefixed. now rewrite Forall_map. Qed.

Lemma table_step_prefixed f n db db' :
  table_step (generate_table_name f) n db db' -> all_prefixed db -> all_prefixed db'.
Proof.
  intros H. rewrite !all_prefixed_names.
  destruct (table_step_names _ _ _ _ H) as [->|[_ ->]]; [auto|].
  intros Hdb. apply Forall_app. split; [exact Hdb|].
  constructor; [apply table_name_prefix|constructor].
Qed.

(* ================================================================== *)
(** * The loop over the files *)

(** A relation between states that every iteration keeps holds between
    the state before a call of [import_csvs_to_db] and the state after. *)
Lemma import_loop_steps (R : State -> State -> Prop) E fs :
  (forall st, R st st) ->
  (forall a b c, R a b -> R b c -> R a c) ->
  (forall f st o st', import_file E fs f st = Some (o, st') -> R st st') ->
  forall files st log, R st (final_state (import_loop E fs files st log)).
Proof.
  intros Hrefl Htrans Hstep files.
  induction files as [|f files IH]; intros st log; simpl; [apply Hrefl|].
  destruct (import_file E fs f st) as [[o st1]|] eqn:Hf; [|apply Hrefl].
  exact (Htrans _ _ _ (Hstep _ _ _ _ Hf) (IH st1 _)).
Qed.






(** X9.  The loop skips a file exactly when the ledger holds its name with
    the hash of its present content, and a skipped file changes nothing:
    no path of the pipeline itself ends in [Skipped]. *)
Theorem skips_exactly_the_recorded_files
    (E : Env) (fs : FileSystem) (f : string) (st st' : State) :
  import_file E fs f st = Some (Skipped, st') <-> recorded E fs st f /\ st' = st.
Proof.
  split.
  - intros H.
    destruct (import_file_ledger _ _ _ _ _ _ H) as (content & Hfs & -> & Hl).
    split; [now exists content|reflexivity].
  - intros [Hrec ->]. now apply import_file_recorded.
Qed.

Lemma skips_exactly_the_recorded_files_witness :
  import_file Example.env (Example.folder [("d/a.csv", Example.two_columns)]) "d/a.csv"
    {| ledger := [("d/a.csv", Example.two_columns)]; tables := [];
       common_column_count := [] |}
  = Some (Skipped,
          {| ledger := [("d/a.csv", Example.two_columns)]; tables := [];
             common_column_count := [] |}).
Proof.
  apply (proj2 (skips_exactly_the_recorded_files Example.env _ _ _ _)).
  split; [|reflexivity].
  exists Example.two_columns. split; reflexivity.
Defined.

(** X10.  An import only adds: whatever the files hold and however the
    call ends, every table that was there is there afterwards under the
    same name, with the same columns, and with its old rows, in their old
    order, at the head of its rows.  No row is deleted or changed and no
    table is dropped or altered. *)
Theorem import_is_append_only
    (E : Env) (fs : FileSystem) (csv_files : list string) (st : State) :
  grows (tables st) (tables (final_state (import_csvs_to_db E fs csv_files st))).
Proof.
  unfold import_csvs_to_db.
  apply (import_loop_steps (fun a b => grows (tables a) (tables b))).
  - intros a. apply grows_refl.
  - intros a b c. apply grows_trans.
  - intros f a o b H. exact (table_step_grows _ _ _ _ (import_file_tables _ _ _ _ _ _ H)).
Qed.

(** X11.  Handling a file touches one table only, the one named after the
    file: every other table is as before, and the number of rows of that
    table goes up by exactly the count printed for the file (nothing for a
    file that is skipped, adds nothing new or fails). *)
Theorem import_file_touches_its_table_only
    (E : Env) (fs : FileSystem) (f : string) (st st' : State) (o : outcome) :
  import_file E fs f st = Some (o, st') ->
  (forall name, name <> generate_table_name f ->
                Sqlite.find_table name (tables st') = Sqlite.find_table name (tables st))
  /\ row_count (generate_table_name f) (tables st')
     = row_count (generate_table_name f) (tables st) + rows_inserted o.
Proof.
  intros H. apply import_file_tables in H. split.
  - intros name Hne. exact (table_step_other _ _ _ _ _ H Hne).
  - exact (table_step_row_count _ _ _ _ H).
Qed.

Lemma import_file_touches_its_table_only_witness :
  row_count "csv_table_b"
    [("csv_table_a", {| t_columns := ["column_1"; "_hash"]; t_rows := [[Some "x"; Some "x"]] |});
     ("csv_table_b",
      {| t_columns := ["column_1"; "column_2"; "column_3"; "_hash"];
         t_rows := [[Some "1"; Some "2"; Some "3"; Some "123"];
                    [Some "4"; Some "5"; Some "6"; Some "456"]] |})]
  = 0 + 2.
Proof.
  assert (import_file Example.env (Example.folder [("d/b.csv", Example.three_columns)])
            "d/b.csv"
            {| ledger := [];
               tables := [("csv_table_a", {| t_columns := ["column_1"; "_hash"];
                                             t_rows := [[Some "x"; Some "x"]] |})];
               common_column_count := [] |}
          = Some (Imported 2,
                  {| ledger := [("d/b.csv", Example.three_columns)];
                     tables :=
                       [("csv_table_a", {| t_columns := ["column_1"; "_hash"];
                                           t_rows := [[Some "x"; Some "x"]] |});
                        ("csv_table_b",
                         {| t_columns := ["column_1"; "column_2"; "column_3"; "_hash"];
                            t_rows := [[Some "1"; Some "2"; Some "3"; Some "123"];
                                       [Some "4"; Some "5"; Some "6"; Some "456"]] |})];
                     common_column_count := [3] |})) as Hrun
      by (vm_compute; reflexivity).
  exact (proj2 (import_file_touches_its_table_only _ _ _ _ _ _ Hrun)).
Defined.

Lemma total_inserted_app log log' :
  total_inserted (log ++ log')%list = total_inserted log + total_inserted log'.
Proof.
  unfold total_inserted. induction log as [|e log IH]; simpl; [reflexivity|].
  rewrite IH. lia.
Qed.

Lemma import_loop_total E fs files : forall st log,
  total_rows (tables (final_state (import_loop E fs files st log))) + total_inserted log
  = total_rows (tables st) + total_inserted (run_log (import_loop E fs files st log)).
Proof.
  induction files as [|f files IH]; intros st log; simpl; [reflexivity|].
  destruct (import_file E fs f st) as [[o st1]|] eqn:Hf; [|reflexivity].
  specialize (IH st1 (log ++ [(f, o)])%list).
  rewrite total_inserted_app in IH.
  pose proof (table_step_total _ _ _ _ (import_file_tables _ _ _ _ _ _ Hf)) as Ht.
  unfold total_inserted at 2 in IH. simpl in IH. lia.
Qed.

(** X12.  The counts a call prints add up to what it stored: the number of
    rows in the database after the call is the number before plus the sum
    of the counts of the lines [Imported n new rows] and [(Fallback)
    Imported n rows], also when the call is ended by an exception. *)
Theorem printed_counts_are_the_rows_stored
    (E : Env) (fs : FileSystem) (csv_files : list string) (st : State) :
  total_rows (tables (final_state (import_csvs_to_db E fs csv_files st)))
  = total_rows (tables st)
    + total_inserted (run_log (import_csvs_to_db E fs csv_files st)).
Proof.
  unfold import_csvs_to_db.
  pose proof (import_loop_total E fs csv_files st []) as H.
  unfold total_inserted at 1 in H. simpl in H. lia.
Qed.

(** X13.  The tables stay well formed: if every table has column names
    that differ even up to case, a column [_hash], and one cell per column
    in every row, and the headers of the files hold no double quote, the
    same holds after a call, however it ends.  It holds in particular of
    every database the program has built from nothing out of such files. *)
Theorem import_keeps_tables_well_formed
    (E : Env) (fs : FileSystem) (csv_files : list string) (st : State) :
  Forall (quote_free E fs) csv_files ->
  db_ok (tables st) ->
  db_ok (tables (final_state (import_csvs_to_db E fs csv_files st))).
Proof.
  intros _. unfold import_csvs_to_db. revert st.
  assert (forall files st log,
            db_ok (tables st) ->
            db_ok (tables (final_state (import_loop E fs files st log)))) as H.
  { induction files as [|f files IH]; intros st log Hok; simpl; [exact Hok|].
    destruct (import_file E fs f st) as [[o st1]|] eqn:Hf; [|exact Hok].
    apply IH.
    exact (table_step_ok _ _ _ _ (import_file_tables _ _ _ _ _ _ Hf) Hok). }
  intros st. apply H.
Qed.

Lemma import_keeps_tables_well_formed_witness :
  db_ok (tables (final_state
                   (import_csvs_to_db Example.env
                      (Example.folder [("d/b.csv", Example.with_header)])
                      ["d/b.csv"] Example.fresh))).
Proof.
  apply import_keeps_tables_well_formed.
  - constructor; [|constructor].
    intros content has_hdr df [= <-] Hp. vm_compute in Hp.
    injection Hp as <- <-. reflexivity.
  - constructor.
Defined.

(** X14.  [search_db] looks at every table an import has made: when the
    tables there are carry the prefix [csv_table_], so do all tables after
    a call of [import_csvs_to_db], and a search reports on each of them,
    in order. *)
Theorem search_sees_every_imported_table
    (E : Env) (fs : FileSystem) (csv_files : list string) (st : State)
    (keyword : string) :
  all_prefixed (tables st) ->
  all_prefixed (tables (final_state (import_csvs_to_db E fs csv_files st)))
  /\ map fst (search_db keyword (final_state (import_csvs_to_db E fs csv_files st)))
     = map fst (tables (final_state (import_csvs_to_db E fs csv_files st))).
Proof.
  intros Hst.
  assert (all_prefixed (tables (final_state (import_csvs_to_db E fs csv_files st))))
    as Hall.
  { unfold import_csvs_to_db. generalize (@nil (string * outcome)). revert st Hst.
    induction csv_files as [|f files IH]; intros st Hst log; simpl; [exact Hst|].
    destruct (import_file E fs f st) as [[o st1]|] eqn:Hf; [|exact Hst].
    apply IH.
    exact (table_step_prefixed _ _ _ _ (import_file_tables _ _ _ _ _ _ Hf) Hst). }
  split; [exact Hall|].
  unfold search_db. rewrite map_map. cbn [fst].
  f_equal. apply forallb_filter_id. apply forallb_forall.
  intros nt Hnt. unfold all_prefixed in Hall.
  rewrite Forall_forall in Hall. now apply Hall.
Qed.

Lemma search_sees_every_imported_table_witness :
  map fst (search_db "nut"
             (final_state
                (import_csvs_to_db Example.env
                   (Example.folder [("d/b.csv", Example.with_header)])
                   ["d/b.csv"] Example.fresh)))
  = map fst (tables (final_state
                       (import_csvs_to_db Example.env
                          (Example.folder [("d/b.csv", Example.with_header)])
                          ["d/b.csv"] Example.fresh))).
Proof.
  apply (search_sees_every_imported_table Example.env). constructor.
Defined.

(* ================================================================== *)
(** * How a call ends *)




(* ================================================================== *)
(** * The entries of the list of column counts *)

Lemma parse_primary_width E content hh df :
  parse_primary E content = Some (hh, df) -> 1 <= width df /\ raw_rows df <> [].
Proof.
  unfold parse_primary. cbv zeta.
  destruct (sniff E (substring 0 2048 (decode E content))) as [d| |];
    destruct (has_header E (substring 0 2048 (decode E content))) as [b| |];
    try discriminate;
    repeat match goal with
           | |- context [read_csv E ?c ?d ?b] =>
               destruct (read_csv E c d b) as [?|]
           end;
    try discriminate;
    match goal with
    | |- context [is_empty ?x] => destruct (is_empty x) eqn:He; [discriminate|]
    end;
    intros [= <- <-]; unfold is_empty, width in *;
    match goal with
    | He : context [raw_rows ?x] |- _ =>
        destruct (raw_rows x); [discriminate|];
        destruct (raw_columns x); [discriminate|]; simpl; split; [lia|discriminate]
    end.
Qed.

Lemma primary_counts_exact E f h content st r st' :
  primary E f h content st = (r, st') ->
  common_column_count st'
  = (common_column_count st
     ++ match parse_primary E content with
        | Some (_, df) => [width df]
        | None => []
        end)%list.
Proof.
  rewrite primary_eq.
  destruct (parse_primary E content) as [[hh df]|].
  - intros H. apply persist_counts in H. exact H.
  - intros [= _ <-]. now rewrite app_nil_r.
Qed.

Lemma import_file_counts_exact E fs f content st o st' :
  fs f = Some content ->
  import_file E fs f st = Some (o, st') ->
  common_column_count st'
  = (common_column_count st
     ++ (if Sqlite.ledger_has f (sha256_hex E content) (ledger st) then []
         else match parse_primary E content with
              | Some (_, df) => [width df]
              | None => []
              end))%list.
Proof.
  intros Hfs. unfold import_file. rewrite Hfs.
  destruct (Sqlite.ledger_has _ _ _).
  { intros [= <- <-]. now rewrite app_nil_r. }
  destruct (primary E f _ content st) as [[o1|] st1] eqn:H1;
    apply primary_counts_exact in H1.
  { now intros [= <- <-]. }
  destruct (fallback E f _ content st1) as [r2 st2] eqn:H2.
  apply fallback_counts in H2.
  destruct r2; intros [= <- <-]; congruence.
Qed.

Lemma import_file_counts_positive E fs f st o st' :
  import_file E fs f st = Some (o, st') ->
  Forall (fun n => 1 <= n) (common_column_count st) ->
  Forall (fun n => 1 <= n) (common_column_count st').
Proof.
  intros H Hpos.
  destruct (import_file_ledger _ _ _ _ _ _ H) as (content & Hfs & _).
  rewrite (import_file_counts_exact _ _ _ _ _ _ _ Hfs H).
  apply Forall_app. split; [exact Hpos|].
  destruct (Sqlite.ledger_has _ _ _); [constructor|].
  destruct (parse_primary E content) as [[hh df]|] eqn:Hp; [|constructor].
  constructor; [|constructor]. exact (proj1 (parse_primary_width _ _ _ _ Hp)).
Qed.

(** X16.  The list [common_column_count] gets an entry for a file exactly
    when the file is not skipped and lines 62 to 81 return a frame that is
    not empty; the entry is the width of that frame, at least one.  It is
    appended before anything is persisted, and stays when persisting raises
    and when the fallback takes over; the fallback path appends nothing. *)
Theorem count_recorded_when_parsing_succeeds
    (E : Env) (fs : FileSystem) (f content : string) (st st' : State) (o : outcome) :
  fs f = Some content ->
  import_file E fs f st = Some (o, st') ->
  common_column_count st'
  = (common_column_count st
     ++ (if Sqlite.ledger_has f (sha256_hex E content) (ledger st) then []
         else match parse_primary E content with
              | Some (_, df) => [width df]
              | None => []
              end))%list
  /\ (Forall (fun n => 1 <= n) (common_column_count st) ->
      Forall (fun n => 1 <= n) (common_column_count st')).
Proof.
  intros Hfs H. split.
  - exact (import_file_counts_exact _ _ _ _ _ _ _ Hfs H).
  - exact (import_file_counts_positive _ _ _ _ _ _ H).
Qed.

Lemma count_recorded_when_parsing_succeeds_witness :
  import_file Example.env (Example.folder [("d/c.csv", Example.with_header)])
    "d/c.csv"
    {| ledger := [("d/c.csv", "old")];
       tables := [("csv_table_c",
                   {| t_columns := ["column_1"; "_hash"]; t_rows := [] |})];
       common_column_count := [] |}
  = Some (Failed,
          {| ledger := [("d/c.csv", "old")];
             tables := [("csv_table_c",
                         {| t_columns := ["column_1"; "_hash"]; t_rows := [] |})];
             common_column_count := [2] |})
  /\ [2] = ([] ++ [2])%list.
Proof.
  assert (import_file Example.env (Example.folder [("d/c.csv", Example.with_header)])
            "d/c.csv"
            {| ledger := [("d/c.csv", "old")];
               tables := [("csv_table_c",
                           {| t_columns := ["column_1"; "_hash"]; t_rows := [] |})];
               common_column_count := [] |}
          = Some (Failed,
                  {| ledger := [("d/c.csv", "old")];
                     tables := [("csv_table_c",
                                 {| t_columns := ["column_1"; "_hash"];
                                    t_rows := [] |})];
                     common_column_count := [2] |})) as Hrun
      by (vm_compute; reflexivity).
  split; [exact Hrun|].
  exact (proj1 (count_recorded_when_parsing_succeeds Example.env
                  (Example.folder [("d/c.csv", Example.with_header)]) "d/c.csv"
                  Example.with_header _ _ _ eq_refl Hrun)).
Defined.

(* ================================================================== *)
(** * One ledger line per file *)

Lemma ledger_has_put_same f h h' l :
  Sqlite.ledger_has f h' (Sqlite.ledger_put f h l) = String.eqb h h'.
Proof.
  unfold Sqlite.ledger_has, Sqlite.ledger_put.
  rewrite existsb_app. simpl. rewrite String.eqb_refl, orb_false_r. simpl.
  replace (existsb _ (filter _ l)) with false; [reflexivity|].
  symmetry. apply existsb_false. intros e He.
  apply filter_In in He as [_ He]. apply negb_true_iff in He. now rewrite He.
Qed.

Lemma ledger_put_keys f h l :
  NoDup (map fst l) -> NoDup (map fst (Sqlite.ledger_put f h l)).
Proof.
  intros Hnd. unfold Sqlite.ledger_put. rewrite map_app. simpl.
  assert (NoDup (map fst (filter (fun e => negb (String.eqb (fst e) f)) l))) as Hf.
  { induction l as [|e l IH]; simpl; [constructor|].
    inversion Hnd as [|? ? Hnotin Hnd']; subst.
    destruct (negb (String.eqb (fst e) f)); simpl; [|now apply IH].
    constructor; [|now apply IH].
    intros Hin. apply Hnotin.
    apply in_map_iff in Hin as (x & Hx & Hin). apply filter_In in Hin as [Hin _].
    apply in_map_iff. now exists x. }
  apply NoDup_app; [exact Hf|repeat constructor; intros []|].
  intros x Hx [<-|[]].
  apply in_map_iff in Hx as (e & He & Hin). apply filter_In in Hin as [_ Hin].
  apply negb_true_iff, String.eqb_neq in Hin. congruence.
Qed.

Lemma ledger_has_in f h l : Sqlite.ledger_has f h l = true <-> In (f, h) l.
Proof.
  unfold Sqlite.ledger_has. rewrite existsb_exists. split.
  - intros ([a b] & Hin & He). simpl in He.
    apply andb_true_iff in He as [Ha Hb].
    apply String.eqb_eq in Ha, Hb. now subst.
  - intros Hin. exists (f, h). simpl. now rewrite !String.eqb_refl.
Qed.

Lemma unique_key {A B} (l : list (A * B)) a b b' :
  NoDup (map fst l) -> In (a, b) l -> In (a, b') l -> b = b'.
Proof.
  induction l as [|[x y] l IH]; simpl; intros Hnd H1 H2; [contradiction|].
  inversion Hnd as [|? ? Hnotin Hnd']; subst.
  destruct H1 as [H1|H1], H2 as [H2|H2].
  - congruence.
  - exfalso. apply Hnotin. apply in_map_iff. exists (a, b').
    split; [simpl; congruence|exact H2].
  - exfalso. apply Hnotin. apply in_map_iff. exists (a, b).
    split; [simpl; congruence|exact H1].
  - now apply IH.
Qed.

Lemma import_file_ledger_keys E fs f st o st' :
  import_file E fs f st = Some (o, st') ->
  NoDup (map fst (ledger st)) -> NoDup (map fst (ledger st')).
Proof.
  intros H Hnd.
  destruct (import_file_ledger _ _ _ _ _ _ H) as (content & _ & Ho).
  destruct o; destruct Ho as [Ho _]; rewrite Ho; auto using ledger_put_keys.
Qed.

(** X17.  The ledger keeps one line per file.  [init_db] declares
    [filename] the primary key and the loop writes with INSERT OR REPLACE:
    if no file name occurs twice in the ledger before a call of
    [import_csvs_to_db], none does after it, however often a file is
    imported and however the call ends, and the ledger knows at most one
    hash for a file. *)
Theorem ledger_has_one_line_per_file
    (E : Env) (fs : FileSystem) (csv_files : list string) (st : State) :
  NoDup (map fst (ledger st)) ->
  NoDup (map fst (ledger (final_state (import_csvs_to_db E fs csv_files st))))
  /\ forall f h h',
       Sqlite.ledger_has f h
         (ledger (final_state (import_csvs_to_db E fs csv_files st))) = true ->
       Sqlite.ledger_has f h'
         (ledger (final_state (import_csvs_to_db E fs csv_files st))) = true ->
       h = h'.
Proof.
  intros Hst.
  assert (NoDup (map fst (ledger (final_state (import_csvs_to_db E fs csv_files st)))))
    as Hnd.
  { unfold import_csvs_to_db. generalize (@nil (string * outcome)). revert st Hst.
    induction csv_files as [|f files IH]; intros st Hst log; simpl; [exact Hst|].
    destruct (import_file E fs f st) as [[o st1]|] eqn:Hf; [|exact Hst].
    apply IH. exact (import_file_ledger_keys _ _ _ _ _ _ Hf Hst). }
  split; [exact Hnd|].
  intros f h h' H1 H2. apply ledger_has_in in H1, H2.
  exact (unique_key _ _ _ _ Hnd H1 H2).
Qed.

Lemma ledger_has_one_line_per_file_witness :
  NoDup (map fst (ledger (final_state
                            (import_csvs_to_db Example.env
                               (Example.folder [("d/b.csv", Example.three_columns)])
                               ["d/b.csv"] Example.fresh)))).
Proof.
  apply ledger_has_one_line_per_file. constructor.
Defined.

(** X18.  After a file has been imported, on either path, the ledger
    answers the check of line 56 for this file with yes for the hash of the
    content just read and with no for every other hash - the hash of an
    earlier version is gone - and answers as before for every other file. *)
Theorem ledger_forgets_the_old_hash
    (E : Env) (fs : FileSystem) (f : string) (st st' : State) (o : outcome) :
  import_file E fs f st = Some (o, st') ->
  o <> Failed -> o <> Skipped ->
  exists content,
    fs f = Some content
    /\ (forall h, Sqlite.ledger_has f h (ledger st') = String.eqb (sha256_hex E content) h)
    /\ (forall g h, g <> f ->
                    Sqlite.ledger_has g h (ledger st') = Sqlite.ledger_has g h (ledger st)).
Proof.
  intros H Hf Hs.
  destruct (import_file_ledger _ _ _ _ _ _ H) as (content & Hfs & Ho).
  exists content. split; [exact Hfs|].
  assert (ledger st' = Sqlite.ledger_put f (sha256_hex E content) (ledger st)) as ->
      by (destruct o; try tauto; congruence).
  split.
  - intros h. apply ledger_has_put_same.
  - intros g h Hne. apply ledger_has_put_other. congruence.
Qed.

Lemma ledger_forgets_the_old_hash_witness :
  exists content,
    Example.folder [("d/c.csv", Example.two_columns)] "d/c.csv" = Some content
    /\ (forall h,
          Sqlite.ledger_has "d/c.csv" h [("d/c.csv", Example.two_columns)]
          = String.eqb (sha256_hex Example.env content) h)
    /\ (forall g h, g <> "d/c.csv" ->
          Sqlite.ledger_has g h [("d/c.csv", Example.two_columns)]
          = Sqlite.ledger_has g h [("d/c.csv", "old")]).
Proof.
  assert (import_file Example.env (Example.folder [("d/c.csv", Example.two_columns)])
            "d/c.csv"
            {| ledger := [("d/c.csv", "old")]; tables := []; common_column_count := [] |}
          = Some (Imported 2,
                  {| ledger := [("d/c.csv", Example.two_columns)];
                     tables := [("csv_table_c",
                                 {| t_columns := ["column_1"; "column_2"; "_hash"];
                                    t_rows := [[Some "1"; Some "2"; Some "12"];
                                               [Some "3"; Some "4"; Some "34"]] |})];
                     common_column_count := [2] |})) as Hrun
      by (vm_compute; reflexivity).
  apply (ledger_forgets_the_old_hash _ _ _ _ _ _ Hrun); discriminate.
Defined.

(* ================================================================== *)
(** * Searches that cannot succeed *)

(** X19.  A search fails on a table - the query is no SQL - when the
    keyword holds no term, as [search_db] called with white space only, or
    when the table has no column besides [_hash]: the statement then ends
    in [WHERE] or holds an empty pair of brackets.  The error is caught and
    printed for the table. *)
Theorem search_without_term_or_column_fails (keyword : string) (t : Table) :
  t_columns t <> [] ->
  Py.split keyword = [] \/ searched_columns t = [] ->
  search_table keyword t = SearchFailed.
Proof.
  intros Hcols H. unfold search_table.
  destruct (t_columns t) as [|c cols] eqn:Hc; [congruence|].
  fold (searched_columns t) in *. unfold searched_columns in *. rewrite Hc in *.
  unfold Sql.select_where.
  destruct H as [->| ->].
  - reflexivity.
  - destruct (Py.split keyword) as [|term terms]; [reflexivity|].
    replace (flat_map _ _) with (@nil Sql.operand); [reflexivity|].
    symmetry. cbn [map fst flat_map app].
    induction terms as [|x terms IH]; simpl; [reflexivity|exact IH].
Qed.

Lemma search_without_term_or_column_fails_witness :
  search_table "   "
    {| t_columns := ["item"; "qty"; "_hash"];
       t_rows := [[Some "nut"; Some "3"; Some "nut3"]] |} = SearchFailed
  /\ search_table "nut"
       {| t_columns := ["_hash"]; t_rows := [[Some "nut"]] |} = SearchFailed.
Proof.
  split.
  - apply search_without_term_or_column_fails; [discriminate|left; reflexivity].
  - apply search_without_term_or_column_fails; [discriminate|right; reflexivity].
Defined.

(* ================================================================== *)
(** * The menu loop *)

Lemma split_go_nil s : forall cur,
  Py.split_go cur s = [] -> cur = [] /\ Py.forall_string Py.isspace s = true.
Proof.
  induction s as [|c s IH]; intros cur; simpl.
  - destruct cur; [now split|discriminate].
  - destruct (Py.isspace c).
    + destruct cur; [|discriminate]. intros H. now destruct (IH [] H).
    + intros H. destruct (IH _ H). discriminate.
Qed.

Lemma rstrip_all_space s :
  Py.forall_string Py.isspace (Py.rstrip s) = true -> Py.rstrip s = EmptyString.
Proof.
  induction s as [|c s IH]; simpl; [reflexivity|].
  destruct (Py.rstrip s) as [|d r].
  - destruct (Py.isspace c) eqn:Hc; [reflexivity|]. simpl. now rewrite Hc.
  - simpl. intros H. apply andb_true_iff in H as [_ H].
    specialize (IH H). discriminate.
Qed.

(** A stripped string that is not empty holds a term. *)
Lemma stripped_has_term s :
  Py.truthy (Py.strip s) = true -> Py.split (Py.strip s) <> [].
Proof.
  intros Ht Hs. unfold Py.split in Hs. apply split_go_nil in Hs as [_ Hs].
  unfold Py.strip in *. rewrite (rstrip_all_space _ Hs) in Ht. discriminate.
Qed.

Lemma in_emit ev x r : In x (snd (emit ev r)) <-> x = ev \/ In x (snd r).
Proof. destruct r as [[e st] trace]. simpl. intuition congruence. Qed.

(** Induction along the lines [main] reads: one or two per turn. *)
Lemma menu_ind (P : list string -> Prop) :
  P [] ->
  (forall line, P [line]) ->
  (forall line rest, P rest -> (forall line2 rest2, rest = line2 :: rest2 -> P rest2) ->
                     P (line :: rest)) ->
  forall inputs, P inputs.
Proof.
  intros Hnil Hone Hstep.
  assert (forall n inputs, length inputs <= n -> P inputs) as H.
  { induction n as [|n IH]; intros [|line rest] Hlen; simpl in Hlen; try exact Hnil; [lia|].
    apply Hstep; [apply IH; lia|].
    intros line2 rest2 ->. simpl in Hlen. apply IH. lia. }
  intros inputs. exact (H _ _ (le_n _)).
Qed.

(** X20.  The menu never searches without a term: every search [main]
    runs has a keyword that is stripped and splits into one term at least,
    so the query of [search_db] always has a condition to put after
    [WHERE].  An answer of white space only is refused before. *)
Theorem main_searches_with_a_term
    (E : Env) (fs : FileSystem) (W : Folders) (inputs : list string) (st : State)
    (keyword : string) (reports : list (string * table_report)) :
  In (SearchRan keyword reports) (snd (main E fs W inputs st)) ->
  Py.split keyword <> [] /\ exists line, keyword = Py.strip line.
Proof.
  revert st. induction inputs as [| line | line rest IH1 IH2] using menu_ind;
    intros st; try (simpl; tauto).
  - simpl. repeat (destruct (String.eqb _ _)); simpl; try tauto;
      intros [H|[]]; discriminate.
  - cbn [main].
    destruct (String.eqb (Py.strip line) "1").
    { destruct rest as [|line2 rest2]; [simpl; tauto|].
      destruct (isdir W _).
      - destruct (import_csvs_to_db _ _ _ _) as [st' log|st' log f].
        + rewrite in_emit. intros [H|H]; [discriminate|].
          exact (IH2 _ _ eq_refl _ H).
        + simpl. intros [H|[]]. discriminate.
      - rewrite in_emit. intros [H|H]; [discriminate|].
        exact (IH2 _ _ eq_refl _ H). }
    destruct (String.eqb (Py.strip line) "2").
    { destruct rest as [|line2 rest2]; [simpl; tauto|].
      destruct (Py.truthy (Py.strip line2)) eqn:Ht.
      - rewrite in_emit. intros [H|H]; [|exact (IH2 _ _ eq_refl _ H)].
        injection H as -> _. split; [now apply stripped_has_term|now exists line2].
      - rewrite in_emit. intros [H|H]; [discriminate|].
        exact (IH2 _ _ eq_refl _ H). }
    destruct (String.eqb (Py.strip line) "3").
    { simpl. intros [H|[]]. discriminate. }
    rewrite in_emit. intros [H|H]; [discriminate|]. exact (IH1 _ H).
Qed.

Lemma main_searches_with_a_term_witness :
  Py.split "John  Paris" <> [] /\ exists line, "John  Paris" = Py.strip line.
Proof.
  apply (main_searches_with_a_term Example.env (Example.folder [])
           {| isdir := fun _ => false; glob_csv := fun _ => [] |}
           [" 2 "; "  John  Paris "; "3"] Example.fresh "John  Paris" []).
  vm_compute. left. reflexivity.
Defined.

(* ================================================================== *)
(** * What a match prints *)

Lemma no_duplicate_nodup cols : Sqlite.has_duplicate cols = false -> NoDup cols.
Proof.
  induction cols as [|c cols IH]; simpl; intros H; [constructor|].
  apply orb_false_iff in H as [Hc Hd]. constructor; [|now apply IH].
  intros Hin. now rewrite (has_column_self _ _ Hin) in Hc.
Qed.

Lemma find_key {B} (d : list (string * B)) k v :
  NoDup (map fst d) -> In (k, v) d ->
  find (fun kv => String.eqb (fst kv) k) d = Some (k, v).
Proof.
  induction d as [|[x y] d IH]; simpl; intros Hnd Hin; [contradiction|].
  inversion Hnd as [|? ? Hnotin Hnd']; subst.
  destruct (String.eqb_spec x k) as [->|Hne].
  - destruct Hin as [[= ->]|Hin]; [reflexivity|].
    exfalso. apply Hnotin. apply in_map_iff. now exists (k, v).
  - destruct Hin as [[= -> _]|Hin]; [congruence|now apply IH].
Qed.

Lemma dict_get_in col v d :
  NoDup (map fst d) -> In (col, v) d -> dict_get col d = Some v.
Proof.
  intros Hnd Hin. unfold dict_get.
  rewrite (find_key (rev d) col v); [reflexivity| |now apply in_rev in Hin].
  rewrite map_rev. now apply NoDup_rev.
Qed.

Lemma map_fst_combine {A B} (l : list A) : forall (l' : list B),
  length l' = length l -> map fst (combine l l') = l.
Proof.
  induction l as [|a l IH]; intros [|b l'] H; simpl in *; try discriminate; [reflexivity|].
  f_equal. apply IH. lia.
Qed.

(** X23.  For a row of a table whose column names differ, [display_row]
    is the row without the cell of [_hash]: the cells of the other columns
    in the order of the table, a NULL printed as [None].  The default of
    [row_dict.get], the empty string, is never used. *)
Theorem display_row_shows_the_other_cells (all_columns : list string) (row : list cell) :
  Sqlite.has_duplicate all_columns = false ->
  length row = length all_columns ->
  display_row all_columns
    (filter (fun col => negb (String.eqb col "_hash")) all_columns) row
  = map (fun cv => match snd cv with Some v => v | None => "None" end)
        (filter (fun cv => negb (String.eqb (fst cv) "_hash")) (combine all_columns row)).
Proof.
  intros Hdup Hlen. unfold display_row.
  assert (NoDup (map fst (combine all_columns row))) as Hnd.
  { rewrite (map_fst_combine _ _ Hlen). now apply no_duplicate_nodup. }
  assert (forall cols r,
            length r = length cols ->
            incl (combine cols r) (combine all_columns row) ->
            map (fun col => display_cell (dict_get col (combine all_columns row)))
                (filter (fun col => negb (String.eqb col "_hash")) cols)
            = map (fun cv : string * cell =>
                     match snd cv with Some v => v | None => "None" end)
                  (filter (fun cv => negb (String.eqb (fst cv) "_hash")) (combine cols r)))
    as H.
  { induction cols as [|c cols IH]; intros [|v r] Hl Hincl; simpl in *;
      try discriminate; try reflexivity.
    assert (incl (combine cols r) (combine all_columns row)) as Hincl'
        by (intros x Hx; apply Hincl; now right).
    destruct (negb (String.eqb c "_hash")); simpl.
    - rewrite (dict_get_in c v _ Hnd (Hincl _ (or_introl eq_refl))).
      f_equal. apply IH; [lia|exact Hincl'].
    - apply IH; [lia|exact Hincl']. }
  apply H; [exact Hlen|apply incl_refl].
Qed.

Lemma display_row_shows_the_other_cells_witness :
  display_row ["item"; "_hash"; "qty"] ["item"; "qty"] [Some "nut"; Some "nut3"; None]
  = ["nut"; "None"].
Proof.
  apply (display_row_shows_the_other_cells ["item"; "_hash"; "qty"]
           [Some "nut"; Some "nut3"; None]); reflexivity.
Defined.

(* ================================================================== *)
(** * Persisting a frame twice *)

Lemma column_index_fold a b cols :
  Sqlite.name_eqb a b = true -> Sqlite.column_index a cols = Sqlite.column_index b cols.
Proof.
  unfold Sqlite.name_eqb. intros H. apply String.eqb_eq in H.
  induction cols as [|c cols IH]; simpl; [reflexivity|].
  unfold Sqlite.name_eqb. now rewrite H, IH.
Qed.

Lemma column_index_some name cols : forall i,
  Sqlite.column_index name cols = Some i ->
  exists c, nth_error cols i = Some c /\ Sqlite.name_eqb name c = true.
Proof.
  induction cols as [|c cols IH]; simpl; intros i H; [discriminate|].
  destruct (Sqlite.name_eqb name c) eqn:Hc.
  - injection H as <-. now exists c.
  - destruct (Sqlite.column_index name cols) as [k|]; [|discriminate].
    injection H as <-. exact (IH k eq_refl).
Qed.

Lemma replaced_hash_nth (h : string) cols : forall (row : list value) j,
  nth_error cols j = Some "_hash" ->
  length row = length cols ->
  nth j (map (fun cv : string * value =>
                if String.eqb (fst cv) "_hash" then Text h else snd cv)
             (combine cols row)) PyNone
  = Text h.
Proof.
  induction cols as [|c cols IH]; intros [|v row] [|j] Hj Hlen; simpl in *;
    try discriminate.
  - injection Hj as ->. reflexivity.
  - apply IH; [exact Hj|lia].
Qed.

(** The cell of a frame row under the label [_hash] is the digest of the
    row. *)
Lemma with_hash_nth E cols row j :
  nth_error (columns_with_hash cols) j = Some "_hash" ->
  length row = length cols ->
  nth j (with_hash E cols row) PyNone = Text (row_digest E row).
Proof.
  unfold columns_with_hash, with_hash. cbv zeta.
  destruct (has_hash_label cols) eqn:Hl; intros Hj Hlen.
  - now apply replaced_hash_nth.
  - destruct (Nat.lt_ge_cases j (length cols)) as [Hlt|Hge].
    + rewrite nth_error_app1 in Hj by exact Hlt.
      apply nth_error_In in Hj.
      unfold has_hash_label in Hl.
      assert (existsb (String.eqb "_hash") cols = true) as Ht
          by (apply existsb_exists; exists "_hash"; split;
              [exact Hj|apply String.eqb_refl]).
      congruence.
    + rewrite nth_error_app2 in Hj by exact Hge.
      destruct (j - length cols) as [|k] eqn:Hk;
        [|destruct k; discriminate].
      assert (j = length row) as -> by lia.
      rewrite app_nth2 by lia. now rewrite Nat.sub_diag.
Qed.

(** What a table stores in its column [_hash] for a frame row is the
    digest of the row. *)
Lemma stored_digest E cols tcols row i :
  Sqlite.has_duplicate (columns_with_hash cols) = false ->
  length row = length cols ->
  Sqlite.column_index "_hash" tcols = Some i ->
  nth i (Sqlite.align (columns_with_hash cols) tcols
           (map sql_value (with_hash E cols row))) None
  = Some (row_digest E row).
Proof.
  intros Hdup Hlen Hi.
  destruct (column_index_some _ _ _ Hi) as (tc & Htc & Heq).
  unfold Sqlite.align.
  apply nth_error_nth. rewrite nth_error_map, Htc. cbn [option_map]. f_equal.
  rewrite name_eqb_sym in Heq. rewrite (column_index_fold _ _ _ Heq).
  pose proof (columns_with_hash_has_hash cols) as Hh.
  assert (In "_hash" (columns_with_hash cols)) as Hin.
  { unfold columns_with_hash, has_hash_label.
    destruct (existsb (String.eqb "_hash") cols) eqn:H.
    - apply existsb_exists in H as (x & Hx & He).
      apply String.eqb_eq in He. now subst x.
    - apply in_or_app. right. now left. }
  apply In_nth_error in Hin as [j Hj].
  rewrite (column_index_nth _ _ _ Hdup Hj).
  change (@None string) with (sql_value PyNone). rewrite map_nth.
  now rewrite (with_hash_nth _ _ _ _ Hj Hlen).
Qed.

Lemma isin_app h hs hs' : isin h (hs ++ hs')%list = isin h hs || isin h hs'.
Proof. unfold isin. apply existsb_app. Qed.

Lemma isin_in h hs : In (Some h) hs -> isin h hs = true.
Proof.
  intros H. unfold isin. apply existsb_exists. exists (Some h).
  split; [exact H|apply String.eqb_refl].
Qed.

Lemma set_tables_same st : set_tables (tables st) st = st.
Proof. now destruct st. Qed.

(** X24.  Rows that have been persisted are not inserted a second time.
    After [persist] has returned for a frame - one cell per column in each
    row, column names that differ even up to case - the table holds the
    digest of every row of the frame, whether the row was inserted now or
    was there before: persisting the same frame again, on either path and
    under any file hash, inserts nothing, leaves the tables as they are
    and only rewrites the ledger entry. *)
Theorem persisted_rows_are_not_inserted_again
    (E : Env) (b b2 : bool) (f h h2 : string) (df : Frame) (st st1 : State)
    (o : outcome) :
  rectangular df ->
  Sqlite.has_duplicate (columns_with_hash (columns df)) = false ->
  persist E b f h df st = (Ok o, st1) ->
  persist E b2 f h2 df st1
  = (Ok (if b2 then FallbackNoNewData else NoNewData),
     set_ledger (Sqlite.ledger_put f h2 (ledger st1)) st1).
Proof.
  intros Hrect Hdup H1. rewrite persist_eq in H1.
  destruct (Sqlite.create_table_if_not_exists _ _ _) as [db1|] eqn:Hcreate;
    [|discriminate].
  destruct (Sqlite.select_hash _ db1) as [hs|] eqn:Hsel; [|discriminate].
  assert (existsb Sqlite.has_dquote (columns_with_hash (columns df)) = false) as Hq.
  { unfold Sqlite.create_table_if_not_exists in Hcreate.
    now destruct (existsb Sqlite.has_dquote _). }
  destruct (select_hash_find _ _ _ Hsel) as [t Ht].
  assert (forall db2 hs2,
            Sqlite.find_table (generate_table_name f) db2 <> None ->
            Sqlite.select_hash (generate_table_name f) db2 = Some hs2 ->
            (forall row, In row (rows df) -> isin (row_digest E row) hs2 = true) ->
            forall l,
              persist E b2 f h2 df (set_ledger l (set_tables db2 st))
              = (Ok (if b2 then FallbackNoNewData else NoNewData),
                 set_ledger (Sqlite.ledger_put f h2 l) (set_tables db2 st))) as Hagain.
  { intros db2 hs2 Hfind Hsel2 Hall l. rewrite persist_eq.
    cbn [tables set_ledger set_tables ledger].
    destruct (Sqlite.find_table _ db2) as [t2|] eqn:Ht2; [|congruence].
    rewrite (create_existing _ _ _ _ Ht2), Hq, Hsel2, (dedupe_all_present _ _ _ Hall).
    reflexivity. }
  destruct (dedupe E df hs) as [|r0 new_rows] eqn:Hd.
  - injection H1 as _ <-.
    rewrite (Hagain db1 hs); [reflexivity|congruence|exact Hsel|].
    intros row Hrow. rewrite dedupe_filter_map in Hd.
    apply map_eq_nil in Hd.
    destruct (isin (row_digest E row) hs) eqn:Hi; [reflexivity|].
    assert (In row (filter (fun row => negb (isin (row_digest E row) hs)) (rows df)))
      as Hin by (apply filter_In; split; [exact Hrow|now rewrite Hi]).
    rewrite Hd in Hin. contradiction.
  - cbv zeta in H1. unfold Sqlite.to_sql in H1. rewrite Ht in H1.
    destruct (forallb _ _); [|discriminate].
    injection H1 as _ <-.
    unfold Sqlite.select_hash in Hsel. rewrite Ht in Hsel.
    destruct (Sqlite.column_index "_hash" (t_columns t)) as [i|] eqn:Hi; [|discriminate].
    injection Hsel as <-.
    erewrite Hagain; [reflexivity| | |].
    + rewrite find_table_update, String.eqb_refl, Ht. discriminate.
    + unfold Sqlite.select_hash.
      rewrite find_table_update, String.eqb_refl, Ht. cbn [t_columns t_rows].
      rewrite Hi. reflexivity.
    + intros row Hrow. rewrite map_app, isin_app.
      match goal with
      | |- ?a || _ = true => destruct a eqn:Hold
      end; [reflexivity|].
      rewrite orb_false_l. apply isin_in.
      assert (In (row_digest E row, with_hash E (columns df) row) (r0 :: new_rows))
        as Hin.
      { rewrite <- Hd, dedupe_filter_map. apply in_map_iff. exists row.
        split; [reflexivity|]. apply filter_In. split; [exact Hrow|].
        apply negb_true_iff. exact Hold. }
      apply (in_map snd) in Hin. apply (in_map (map sql_value)) in Hin.
      apply (in_map (Sqlite.align (columns_with_hash (columns df)) (t_columns t)))
        in Hin.
      apply (in_map (fun r : list cell => nth i r None)) in Hin.
      cbn [snd] in Hin. rewrite stored_digest in Hin; [exact Hin|exact Hdup| |exact Hi].
      unfold rectangular in Hrect. rewrite Forall_forall in Hrect. now apply Hrect.
Qed.

Lemma persisted_rows_are_not_inserted_again_witness :
  persist Example.env true "d/b.csv" "h2"
    {| columns := ["item"; "qty"]; rows := [[Text "nut"; Text "3"]; [Text "bolt"; NaN]] |}
    {| ledger := [("d/b.csv", "h")];
       tables := [("csv_table_b",
                   {| t_columns := ["item"; "qty"; "_hash"];
                      t_rows := [[Some "nut"; Some "3"; Some "nut3"];
                                 [Some "bolt"; None; Some "boltnan"]] |})];
       common_column_count := [] |}
  = (Ok FallbackNoNewData,
     {| ledger := [("d/b.csv", "h2")];
        tables := [("csv_table_b",
                    {| t_columns := ["item"; "qty"; "_hash"];
                       t_rows := [[Some "nut"; Some "3"; Some "nut3"];
                                  [Some "bolt"; None; Some "boltnan"]] |})];
        common_column_count := [] |}).
Proof.
  apply (persisted_rows_are_not_inserted_again Example.env false true "d/b.csv" "h" "h2"
           {| columns := ["item"; "qty"];
              rows := [[Text "nut"; Text "3"]; [Text "bolt"; NaN]] |}
           Example.fresh
           {| ledger := [("d/b.csv", "h")];
              tables := [("csv_table_b",
                          {| t_columns := ["item"; "qty"; "_hash"];
                             t_rows := [[Some "nut"; Some "3"; Some "nut3"];
                                        [Some "bolt"; None; Some "boltnan"]] |})];
              common_column_count := [] |}
           (Imported 2)).
  - repeat constructor.
  - reflexivity.
  - vm_compute. reflexivity.
Defined.

(* ================================================================== *)
(** * The hash column of a frame *)

Lemma replaced_hash_length (h : string) cols : forall (row : list value),
  length row = length cols ->
  length (map (fun cv : string * value =>
                 if String.eqb (fst cv) "_hash" then Text h else snd cv)
              (combine cols row))
  = length cols.
Proof.
  intros row H. rewrite length_map, length_combine. lia.
Qed.

Lemma replaced_hash_other (h : string) cols : forall (row : list value) j c,
  nth_error cols j = Some c -> c <> "_hash" ->
  nth j (map (fun cv : string * value =>
                if String.eqb (fst cv) "_hash" then Text h else snd cv)
             (combine cols row)) PyNone
  = nth j row PyNone.
Proof.
  induction cols as [|x cols IH]; intros [|v row] [|j] c Hj Hc; simpl in *;
    try discriminate; try reflexivity.
  - injection Hj as ->. now destruct (String.eqb_spec c "_hash").
  - exact (IH row j c Hj Hc).
Qed.

(** X25.  Line 90 on one row.  The frame stays rectangular; the cell under
    the label [_hash] is the digest of the row as it was read; every other
    cell is left as it is.  A file that brings a column [_hash] of its own
    gets no second one: the values of that column are replaced by the
    digests, which were computed over them. *)
Theorem hash_column_holds_the_row_digest
    (E : Env) (cols : list string) (row : list value) :
  length row = length cols ->
  length (with_hash E cols row) = length (columns_with_hash cols)
  /\ (forall j, nth_error (columns_with_hash cols) j = Some "_hash" ->
                nth j (with_hash E cols row) PyNone = Text (row_digest E row))
  /\ (forall j c, nth_error cols j = Some c -> c <> "_hash" ->
                  nth j (with_hash E cols row) PyNone = nth j row PyNone)
  /\ (In "_hash" cols -> columns_with_hash cols = cols).
Proof.
  intros Hlen. split; [|split; [|split]].
  - unfold with_hash, columns_with_hash. cbv zeta.
    destruct (has_hash_label cols).
    + now apply replaced_hash_length.
    + rewrite !length_app. simpl. lia.
  - intros j Hj. now apply with_hash_nth.
  - intros j c Hj Hc. unfold with_hash. cbv zeta.
    destruct (has_hash_label cols).
    + exact (replaced_hash_other _ _ _ _ _ Hj Hc).
    + apply app_nth1. rewrite Hlen. apply nth_error_Some. congruence.
  - intros Hin. unfold columns_with_hash, has_hash_label.
    replace (existsb (String.eqb "_hash") cols) with true; [reflexivity|].
    symmetry. apply existsb_exists. exists "_hash".
    split; [exact Hin|apply String.eqb_refl].
Qed.

Lemma hash_column_holds_the_row_digest_witness :
  length (with_hash Example.env ["id"; "_hash"; "qty"] [Text "7"; Text "old"; NaN])
  = length (columns_with_hash ["id"; "_hash"; "qty"])
  /\ (forall j, nth_error (columns_with_hash ["id"; "_hash"; "qty"]) j = Some "_hash" ->
                nth j (with_hash Example.env ["id"; "_hash"; "qty"]
                         [Text "7"; Text "old"; NaN]) PyNone
                = Text (row_digest Example.env [Text "7"; Text "old"; NaN]))
  /\ (forall j c, nth_error ["id"; "_hash"; "qty"] j = Some c -> c <> "_hash" ->
                  nth j (with_hash Example.env ["id"; "_hash"; "qty"]
                           [Text "7"; Text "old"; NaN]) PyNone
                  = nth j [Text "7"; Text "old"; NaN] PyNone)
  /\ (In "_hash" ["id"; "_hash"; "qty"] ->
      columns_with_hash ["id"; "_hash"; "qty"] = ["id"; "_hash"; "qty"]).
Proof.
  apply (hash_column_holds_the_row_digest Example.env ["id"; "_hash"; "qty"]
           [Text "7"; Text "old"; NaN]).
  reflexivity.
Defined.

(* ================================================================== *)
(** * The column count of the fallback *)

(** X26.  The column count the fallback takes is never zero: when every
    entry of [common_column_count] is at least one before a call of
    [import_csvs_to_db], as in a new process, where the list is empty, then
    so is every entry after it, [infer_columns_structure] returns at least
    one, and the fallback keeps at least one column of any frame that has
    one. *)
Theorem inferred_column_count_is_positive
    (E : Env) (fs : FileSystem) (csv_files : list string) (st : State) :
  Forall (fun n => 1 <= n) (common_column_count st) ->
  Forall (fun n => 1 <= n)
    (common_column_count (final_state (import_csvs_to_db E fs csv_files st)))
  /\ 1 <= infer_columns_structure
            (common_column_count (final_state (import_csvs_to_db E fs csv_files st)))
  /\ forall df,
       1 <= width df ->
       1 <= width
              (iloc_columns
                 (infer_columns_structure
                    (common_column_count
                       (final_state (import_csvs_to_db E fs csv_files st))))
                 df).
Proof.
  intros Hst.
  assert (Forall (fun n => 1 <= n)
            (common_column_count (final_state (import_csvs_to_db E fs csv_files st))))
    as Hpos.
  { unfold import_csvs_to_db. generalize (@nil (string * outcome)). revert st Hst.
    induction csv_files as [|f files IH]; intros st Hst log; simpl; [exact Hst|].
    destruct (import_file E fs f st) as [[o st1]|] eqn:Hf; [|exact Hst].
    apply IH. exact (import_file_counts_positive _ _ _ _ _ _ Hf Hst). }
  assert (1 <= infer_columns_structure
                 (common_column_count
                    (final_state (import_csvs_to_db E fs csv_files st)))) as Hinf.
  { rewrite infer_is_head. revert Hpos.
    generalize (common_column_count (final_state (import_csvs_to_db E fs csv_files st))).
    intros [|n counts] Hpos; simpl; [lia|now inversion Hpos]. }
  split; [exact Hpos|]. split; [exact Hinf|].
  intros df Hdf. rewrite width_iloc. lia.
Qed.

Lemma inferred_column_count_is_positive_witness :
  1 <= infer_columns_structure
         (common_column_count
            (final_state
               (import_csvs_to_db Example.env
                  (Example.folder [("d/b.csv", Example.three_columns)])
                  ["d/b.csv"] Example.fresh))).
Proof.
  apply (inferred_column_count_is_positive Example.env
           (Example.folder [("d/b.csv", Example.three_columns)])
           ["d/b.csv"] Example.fresh).
  constructor.
Defined.
